(** * pwinty: a shallow embedding of the Pwinty REST client

    The package is one class, [Pwinty], in [pwinty/__init__.py]: a
    constructor that assembles the base URL and the two authentication
    headers, the generic dispatch method [_call_api], and the endpoint
    methods built on it.  Every method is embedded as a computation in a
    state-and-exception monad over a [world] that records what the
    client does to its environment: the HTTP requests handed to the
    [requests] library and the file handles obtained from [open]. *)

From Stdlib Require Import ZArith String Ascii List Bool.
From stdpp Require Import base option gmap strings list fin_maps pretty.

Set Warnings "-register-all".

Open Scope string_scope.
Open Scope list_scope.
Open Scope Z_scope.

(** ** Python values *)

(** The values that reach the client: call arguments, request body
    fields and decoded JSON documents.  A dictionary is kept as the list
    of its items in order; its keys are strings, as in a JSON object. *)
Inductive pyval : Type :=
  | PNone
  | PBool (b : bool)
  | PInt (n : Z)
  | PStr (s : string)
  | PList (items : list pyval)
  | PDict (items : list (string * pyval)).

(** [x is None] *)
Definition is_None (v : pyval) : bool :=
  match v with PNone => true | _ => false end.

(** Python truth value: [None], [False], [0], [''], [[]] and [{}] are
    false, everything else is true. *)
Definition truthy (v : pyval) : bool :=
  match v with
  | PNone => false
  | PBool b => b
  | PInt n => negb (n =? 0)
  | PStr s => negb (String.eqb s "")
  | PList l => match l with [] => false | _ => true end
  | PDict d => match d with [] => false | _ => true end
  end.

(** [a or b] *)
Definition py_or (a b : pyval) : pyval := if truthy a then a else b.

(** [d.get(key)] on a dictionary: the value, or [None] when absent. *)
Fixpoint dict_get (key : string) (d : list (string * pyval)) : pyval :=
  match d with
  | [] => PNone
  | (k, v) :: rest => if String.eqb k key then v else dict_get key rest
  end.

(** [key in d] on a dictionary. *)
Fixpoint dict_has (key : string) (d : list (string * pyval)) : bool :=
  match d with
  | [] => false
  | (k, _) :: rest => String.eqb k key || dict_has key rest
  end.

(** [x == 'key'] for a value [x]. *)
Definition eq_str (key : string) (v : pyval) : bool :=
  match v with PStr s => String.eqb s key | _ => false end.

(** [sub in s] on strings: [sub] occurs in [s]. *)
Definition str_contains (sub s : string) : bool :=
  match String.index 0 sub s with Some _ => true | None => false end.

(** ** Exceptions and the client monad *)

(** [PwintyError] is the package's only exception class; it carries the
    message it was raised with.  The other constructors are the builtin
    exceptions that the runtime or [requests] can raise under the
    client. *)
Inductive exn : Type :=
  | PwintyError (msg : pyval)
  | ValueError
  | AttributeError
  | TypeError
  | IOError
  | ConnectionError.

Inductive result (A : Type) : Type :=
  | Return (a : A)
  | Raise (e : exn).
Arguments Return {A} a.
Arguments Raise {A} e.

(** HTTP transport functions of the [requests] module. *)
Inductive http_verb : Type := GET | POST | PUT | DELETE | HEAD | OPTIONS | PATCH.

(** A file object returned by [open]: its index in the handle table. *)
Definition handle := nat.

(** A [files] argument other than [None]: the mapping from field names
    to file objects that the client builds itself, or a value that a
    caller passed under the keyword [files]. *)
Inductive files_value : Type :=
  | Opened (m : gmap string handle)
  | Given (v : pyval).

(** What one call of a transport function receives:
    [action(url, data=..., files=..., headers=...)]. *)
Record request : Type := mkRequest {
  req_method : http_verb;
  req_url : string;
  req_data : gmap string pyval;
  req_files : option files_value;
  req_headers : gmap string string
}.

(** A [requests.Response] as far as the client looks at it: the status
    code, and what [response.json()] gives: [Some v] when the body
    decodes to [v], [None] when the body is not JSON (then [json()]
    raises [ValueError]). *)
Record response : Type := mkResponse {
  status_code : Z;
  body : option pyval
}.

(** The environment of one run.  [server] is the remote side (a
    transport failure is a raised exception), [sent] the requests issued
    so far, oldest first; [readable] tells which paths [open(path, 'r')]
    can open, and [handles] is the table of file objects created so far,
    each with its path and whether it is still open.  [library] tells
    which names the installed [requests] module has besides its
    transport functions (submodules, [request], [session], ...). *)
Record world : Type := mkWorld {
  server : request -> result response;
  sent : list request;
  readable : string -> bool;
  handles : list (string * bool);
  library : string -> bool
}.

Definition M (A : Type) : Type := world -> result A * world.

Definition ret {A} (a : A) : M A := fun w => (Return a, w).
Definition raise {A} (e : exn) : M A := fun w => (Raise e, w).
Definition bind {A B} (c : M A) (k : A -> M B) : M B :=
  fun w => match c w with
           | (Return a, w') => k a w'
           | (Raise e, w') => (Raise e, w')
           end.

Declare Scope py_scope.
Delimit Scope py_scope with py.
Notation "x <- c ;; k" := (bind c (fun x => k))
  (at level 100, c at next level, right associativity) : py_scope.
Open Scope py_scope.

(** ** Runtime primitives *)

(** The world with one more request in the log. *)
Definition record_request (w : world) (r : request) : world :=
  {| server := server w; sent := sent w ++ [r];
     readable := readable w; handles := handles w; library := library w |}.

(** The world with one more file object, open on [p]. *)
Definition record_open (w : world) (p : string) : world :=
  {| server := server w; sent := sent w; readable := readable w;
     handles := handles w ++ [(p, true)]; library := library w |}.

Module Runtime.

(** Calling a transport function: the request is recorded and the
    remote side answers (or the transport raises).  The transport reads
    an attached file but does not close it. *)
Definition http (r : request) : M response :=
  fun w => (server w r, record_request w r).

(** [open(path, 'r')]: a new open file object, [IOError] when the path
    cannot be opened, [TypeError] when the argument is not a path. *)
Definition open_r (path : pyval) : M handle :=
  fun w =>
    match path with
    | PStr p =>
        if readable w p
        then (Return (length (handles w)), record_open w p)
        else (Raise IOError, w)
    | _ => (Raise TypeError, w)
    end.

(** [f.close()].  The package has no call of it; it is here to say what
    a closed handle is. *)
Definition close (h : handle) : M unit :=
  fun w =>
    (Return tt,
     {| server := server w; sent := sent w; readable := readable w;
        handles := alter (fun e => (e.1, false)) h (handles w);
        library := library w |}).

(** The state of a handle: [Some true] open, [Some false] closed. *)
Definition is_open (w : world) (h : handle) : option bool :=
  snd <$> handles w !! h.

(** [response.json()] *)
Definition json (r : response) : M pyval :=
  match body r with
  | Some v => ret v
  | None => raise ValueError
  end.

(** ASCII [str.lower()]. *)
Definition lower_ascii (c : ascii) : ascii :=
  let n := nat_of_ascii c in
  if ((65 <=? n) && (n <=? 90))%nat then ascii_of_nat (n + 32) else c.

Fixpoint lower (s : string) : string :=
  match s with
  | EmptyString => EmptyString
  | String c rest => String (lower_ascii c) (lower rest)
  end.

(** An attribute of the [requests] module: one of its transport
    functions, or anything else the module has under a name. *)
Inductive attribute : Type :=
  | Function (verb : http_verb)
  | Other.

(** [getattr(requests, name)]: the transport function of that name, any
    other attribute the module has, or [AttributeError] for a name it
    does not have. *)
Definition requests_getattr (w : world) (name : string) : result attribute :=
  if String.eqb name "get" then Return (Function GET)
  else if String.eqb name "post" then Return (Function POST)
  else if String.eqb name "put" then Return (Function PUT)
  else if String.eqb name "delete" then Return (Function DELETE)
  else if String.eqb name "head" then Return (Function HEAD)
  else if String.eqb name "options" then Return (Function OPTIONS)
  else if String.eqb name "patch" then Return (Function PATCH)
  else if library w name then Return Other
  else Raise AttributeError.

(** [action(url, data=data, files=files, headers=headers)]: a transport
    function sends the request; no other attribute of the module can be
    called with these arguments, which is a [TypeError]. *)
Definition call (action : attribute) (url : string)
    (data : gmap string pyval) (files : option files_value)
    (headers : gmap string string) : M response :=
  match action with
  | Function verb =>
      http {| req_method := verb; req_url := url; req_data := data;
              req_files := files; req_headers := headers |}
  | Other => raise TypeError
  end.

End Runtime.

(** An order or photo identifier, [int|str], and its rendering by
    ['{0}'.format(...)]. *)
Inductive ident : Type :=
  | IdInt (n : Z)
  | IdStr (s : string).

Definition format_id (i : ident) : string :=
  match i with
  | IdInt n => pretty n
  | IdStr s => s
  end.

(** ** The client *)

(** The two attributes set by [__init__]. *)
Record Pwinty : Type := mkPwinty {
  api : string;
  headers : gmap string string
}.

(** [Pwinty.__init__(merchant_id, apikey, version=None, sandbox=True)] *)
Definition Pwinty_init (merchant_id apikey : string)
    (version : option string) (sandbox : bool) : Pwinty :=
  let version := match version with None => "v2" | Some v => v end in
  {| api := "https://" +:+ (if sandbox then "sandbox" else "api")
            +:+ ".pwinty.com/" +:+ version;
     headers := <["X-Pwinty-REST-API-Key" := apikey]>
                  (<["X-Pwinty-MerchantId" := merchant_id]> ∅) |}.

(** [key in kwargs] *)
Definition has_key (kwargs : gmap string pyval) (key : string) : bool :=
  match kwargs !! key with Some _ => true | None => false end.

Section Client.

Variable self : Pwinty.

(** [_get_http_method(verb)]: [getattr(requests, verb.lower())] *)
Definition _get_http_method (verb : string) : M Runtime.attribute :=
  fun w => (Runtime.requests_getattr w (Runtime.lower verb), w).

(** [v.get(key)]: only a dictionary has the method. *)
Definition py_get (v : pyval) (key : string) : M pyval :=
  match v with
  | PDict d => ret (dict_get key d)
  | _ => raise AttributeError
  end.

(** ['key' in v]: key membership in a dictionary, substring test on a
    string, element test on a list; the other values are not
    containers. *)
Definition py_in (key : string) (v : pyval) : M bool :=
  match v with
  | PDict d => ret (dict_has key d)
  | PStr s => ret (str_contains key s)
  | PList l => ret (existsb (eq_str key) l)
  | _ => raise TypeError
  end.

(** [_get_error_message(response)] *)
Definition _get_error_message (response : response) : M pyval :=
  doc <- Runtime.json response ;;
  error <- py_get doc "Error" ;;
  if truthy error then
    has <- py_in "Message" error ;;
    if has : bool then py_get error "Message"
    else ret (PStr "An unknown error occurred")
  else ret (PStr "An unknown error occurred").

(** [_call_api(method, api, files=None, **kwargs)]; the parameter [api]
    of the source is [path] here, next to the attribute [self.api]. *)
Definition _call_api (method path : string)
    (files : option files_value) (kwargs : gmap string pyval)
    : M response :=
  action <- _get_http_method method ;;
  response <- Runtime.call action (api self +:+ path) kwargs files
                (headers self) ;;
  if status_code response =? 401 then
    raise (PwintyError (PStr "Authentication Failed"))
  else if status_code response =? 404 then
    raise (PwintyError (PStr "The specified resource could not be found"))
  else if (status_code response =? 400) || (status_code response >=? 500) then
    msg <- _get_error_message response ;;
    raise (PwintyError msg)
  else ret response.

Definition get_orders : M pyval :=
  response <- _call_api "GET" "/Orders" None ∅ ;;
  Runtime.json response.

Definition get_order (order_id : ident) : M pyval :=
  response <- _call_api "GET" ("/Orders/" +:+ format_id order_id) None ∅ ;;
  Runtime.json response.

(** [self._call_api(method, api, **kwargs)] as [create_order] and
    [update_order] write it spreads the caller's keyword arguments over
    the parameters [self], [method], [api], [files=None] and [**kwargs]
    of [_call_api].  A key that names a parameter already bound (of the
    calling method itself, [own], or [method] and [api]) is a
    [TypeError]; the key [files] is taken as the [files] argument and
    leaves the body; the rest is the body. *)
Definition spread_kwargs (own : list string) (kwargs : gmap string pyval)
    : M (option files_value * gmap string pyval) :=
  if existsb (has_key kwargs) (own ++ ["method"; "api"]) then raise TypeError
  else ret (match kwargs !! "files" with
            | None | Some PNone => None
            | Some v => Some (Given v)
            end,
            delete "files" kwargs).

Definition create_order (kwargs : gmap string pyval) : M pyval :=
  args <- spread_kwargs ["self"] kwargs ;;
  response <- _call_api "POST" "/Orders" (fst args) (snd args) ;;
  Runtime.json response.

Definition update_order (order_id : ident) (kwargs : gmap string pyval)
    : M pyval :=
  args <- spread_kwargs ["self"; "order_id"] kwargs ;;
  response <- _call_api "PUT" ("/Orders/" +:+ format_id order_id)
                (fst args) (snd args) ;;
  if status_code response =? 403 then
    raise (PwintyError (PStr "Order submitted and can not be updated"))
  else Runtime.json response.

Definition update_order_status (order_id : ident) (status : pyval) : M pyval :=
  response <- _call_api "POST"
    ("/Orders/" +:+ format_id order_id +:+ "/Status") None
    (<["status" := status]> ∅) ;;
  if status_code response =? 403 then
    raise (PwintyError (PStr "Can not move to specified status from current"))
  else Runtime.json response.

Definition get_submission_status (order_id : ident) : M pyval :=
  response <- _call_api "GET"
    ("/Orders/" +:+ format_id order_id +:+ "/SubmissionStatus") None ∅ ;;
  Runtime.json response.

Definition get_countries : M pyval :=
  response <- _call_api "GET" "/Country" None ∅ ;;
  Runtime.json response.

Definition get_photos (order_id : ident) : M pyval :=
  response <- _call_api "GET"
    ("/Orders/" +:+ format_id order_id +:+ "/Photos") None ∅ ;;
  Runtime.json response.

Definition get_photo (order_id photo_id : ident) : M pyval :=
  response <- _call_api "GET"
    ("/Orders/" +:+ format_id order_id +:+ "/Photos/" +:+ format_id photo_id)
    None ∅ ;;
  Runtime.json response.

(** The body fields [add_photo] builds. *)
Definition add_photo_data
    (ptype url copies sizing price_to_user md5hash : pyval)
    : gmap string pyval :=
  <["type" := ptype]> (<["url" := url]> (
  <["copies" := py_or copies (PInt 1)]> (
  <["sizing" := py_or sizing (PStr "Crop")]> (
  <["priceToUser" := price_to_user]> (
  <["md5Hash" := md5hash]> ∅))))).

(** The [files] argument [add_photo] builds: [None], or the mapping
    [{'file': open(imgfile, 'r')}] when [imgfile] is true. *)
Definition add_photo_files (imgfile : pyval)
    : M (option files_value) :=
  if truthy imgfile then
    f <- Runtime.open_r imgfile ;;
    ret (Some (Opened (<["file" := f]> ∅)))
  else ret None.

(** [add_photo(order_id, ptype, url=None, copies=None, sizing=None,
    price_to_user=None, md5hash=None, imgfile=None)] *)
Definition add_photo (order_id : ident)
    (ptype url copies sizing price_to_user md5hash imgfile : pyval)
    : M pyval :=
  if is_None url && is_None imgfile then
    raise (PwintyError (PStr "File or URL for the image is required"))
  else if negb (is_None url) && negb (is_None imgfile) then
    raise (PwintyError (PStr "Cannot use both a URL and a file"))
  else
    let data :=
      add_photo_data ptype url copies sizing price_to_user md5hash in
    files <- add_photo_files imgfile ;;
    response <- _call_api "POST"
      ("/Orders/" +:+ format_id order_id +:+ "/Photos") files data ;;
    if status_code response =? 403 then
      raise (PwintyError (PStr "Cannot add photos to this order"))
    else Runtime.json response.

Definition delete_photo (order_id photo_id : ident) : M pyval :=
  response <- _call_api "DELETE"
    ("/Orders/" +:+ format_id order_id +:+ "/Photos/" +:+ format_id photo_id)
    None ∅ ;;
  if status_code response =? 403 then
    raise (PwintyError (PStr "Cannot remove photos from this order"))
  else Runtime.json response.

Definition get_catalogue (country_code quality_level : string) : M pyval :=
  response <- _call_api "GET"
    ("/Catalogue/" +:+ country_code +:+ "/" +:+ quality_level) None ∅ ;;
  Runtime.json response.

End Client.

(** ** Calls and what they show to the environment *)

(** One call of a public endpoint method with its arguments. *)
Inductive endpoint_call : Type :=
  | GetOrders
  | GetOrder (order_id : ident)
  | CreateOrder (kwargs : gmap string pyval)
  | UpdateOrder (order_id : ident) (kwargs : gmap string pyval)
  | UpdateOrderStatus (order_id : ident) (status : pyval)
  | GetSubmissionStatus (order_id : ident)
  | GetCountries
  | GetPhotos (order_id : ident)
  | GetPhoto (order_id photo_id : ident)
  | AddPhoto (order_id : ident)
      (ptype url copies sizing price_to_user md5hash imgfile : pyval)
  | DeletePhoto (order_id photo_id : ident)
  | GetCatalogue (country_code quality_level : string).

Definition run (self : Pwinty) (c : endpoint_call) : M pyval :=
  match c with
  | GetOrders => get_orders self
  | GetOrder i => get_order self i
  | CreateOrder kw => create_order self kw
  | UpdateOrder i kw => update_order self i kw
  | UpdateOrderStatus i st => update_order_status self i st
  | GetSubmissionStatus i => get_submission_status self i
  | GetCountries => get_countries self
  | GetPhotos i => get_photos self i
  | GetPhoto i p => get_photo self i p
  | AddPhoto i ty url cp sz pr md5 img =>
      add_photo self i ty url cp sz pr md5 img
  | DeletePhoto i p => delete_photo self i p
  | GetCatalogue cc ql => get_catalogue self cc ql
  end.

(** The requests a computation adds to the log when started in [w]. *)
Definition issued {A} (c : M A) (w : world) : list request :=
  drop (length (sent w)) (sent (snd (c w))).

(** The answer of the remote side to the first of them. *)
Definition answer {A} (c : M A) (w : world) : option (result response) :=
  server w <$> head (issued c w).

(** The outcome of a computation, the final world left aside. *)
Definition outcome {A} (c : M A) (w : world) : result A := fst (c w).

(** A computation that only looks at its arguments leaves the world as
    it found it. *)
Definition silent {A} (c : M A) : Prop := forall w, snd (c w) = w.

(** A computation that keeps the log and adds to it only requests that
    satisfy [P]. *)
Definition sends_only {A} (P : request -> Prop) (c : M A) : Prop :=
  forall w, exists new, sent (snd (c w)) = sent w ++ new /\ Forall P new.

(** Whether [open(imgfile, 'r')] succeeds in [w]. *)
Definition openable (w : world) (imgfile : pyval) : bool :=
  match imgfile with
  | PStr p => readable w p
  | _ => false
  end.

(** The message of the error that an endpoint method raises itself on
    status 403: the four methods with such a check after the dispatch
    and their messages. *)
Definition own_error (c : endpoint_call) : option string :=
  match c with
  | UpdateOrder _ _ => Some "Order submitted and can not be updated"
  | UpdateOrderStatus _ _ =>
      Some "Can not move to specified status from current"
  | AddPhoto _ _ _ _ _ _ _ _ => Some "Cannot add photos to this order"
  | DeletePhoto _ _ => Some "Cannot remove photos from this order"
  | _ => None
  end.

(** What an endpoint method does with the response the dispatch
    returned: its check for status 403, when it has one, then
    [response.json()]. *)
Definition decode_unless_403 (own : option string) (response : response)
    : M pyval :=
  match own with
  | Some msg =>
      if status_code response =? 403 then raise (PwintyError (PStr msg))
      else Runtime.json response
  | None => Runtime.json response
  end.

(** Whether a call gets as far as the dispatch: the keyword arguments of
    [create_order] and [update_order] bind, [add_photo] accepts its
    image source and can open the file it is to send.  The other methods
    do nothing before the dispatch. *)
Definition passes_local_checks (w : world) (c : endpoint_call) : bool :=
  match c with
  | CreateOrder kw => negb (existsb (has_key kw) ["self"; "method"; "api"])
  | UpdateOrder _ kw =>
      negb (existsb (has_key kw) ["self"; "order_id"; "method"; "api"])
  | AddPhoto _ _ url _ _ _ _ img =>
      xorb (is_None url) (is_None img) && (negb (truthy img) || openable w img)
  | _ => true
  end.

(** The requests that every endpoint method builds for a given client
    differ in verb, URL, body and files only. *)
Definition build_request (self : Pwinty) (verb : http_verb) (path : string)
    (files : option files_value) (kwargs : gmap string pyval)
    : request :=
  {| req_method := verb; req_url := api self +:+ path; req_data := kwargs;
     req_files := files; req_headers := headers self |}.

(** ** Sample clients and environments *)

(** The client of the package's test suite. *)
Definition test_client : Pwinty := Pwinty_init "123456" "7890123" None true.

(** An environment with an empty log and no file object yet, where the
    remote side gives the same answer to every request and the one
    readable path is [photo.jpg]. *)
Definition fresh_world (ans : result response) : world :=
  {| server := fun _ => ans; sent := [];
     readable := fun p => String.eqb p "photo.jpg"; handles := [];
     library := fun name => String.eqb name "request"
                            || String.eqb name "session" |}.

(** A decoded error document in the vendor's format. *)
Definition vendor_error (msg : string) : pyval :=
  PDict [("Error", PDict [("Message", PStr msg)])].

(** * Properties *)

(** ** The monad and the runtime *)

Lemma silent_ret {A} (a : A) : silent (ret a).
Proof. intros w. reflexivity. Qed.

Lemma silent_raise {A} (e : exn) : silent (@raise A e).
Proof. intros w. reflexivity. Qed.

Lemma silent_bind {A B} (c : M A) (k : A -> M B) :
  silent c -> (forall a, silent (k a)) -> silent (bind c k).
Proof.
  intros Hc Hk w. unfold bind.
  specialize (Hc w). destruct (c w) as [[a|e] w1]; simpl in Hc; subst w1.
  - apply Hk.
  - reflexivity.
Qed.

Lemma silent_json r : silent (Runtime.json r).
Proof.
  unfold Runtime.json. destruct (body r); [apply silent_ret | apply silent_raise].
Qed.

Lemma silent_py_get v key : silent (py_get v key).
Proof. destruct v; first [apply silent_ret | apply silent_raise]. Qed.

Lemma silent_py_in key v : silent (py_in key v).
Proof. destruct v; first [apply silent_ret | apply silent_raise]. Qed.

Lemma silent_get_error_message r : silent (_get_error_message r).
Proof.
  unfold _get_error_message.
  apply silent_bind; [apply silent_json | intros doc].
  apply silent_bind; [apply silent_py_get | intros error].
  destruct (truthy error); [| apply silent_ret].
  apply silent_bind; [apply silent_py_in | intros [|]].
  - apply silent_py_get.
  - apply silent_ret.
Qed.

Create HintDb pwinty.
#[local] Hint Resolve silent_ret silent_raise silent_json silent_py_get
  silent_py_in silent_get_error_message : pwinty.

Lemma silent_run {A} (c : M A) w : silent c -> c w = (outcome c w, w).
Proof.
  intros H. unfold outcome. specialize (H w).
  destruct (c w) as [r w1]. simpl in *. congruence.
Qed.

(** The log after one more request. *)
Lemma sent_record_request w r : sent (record_request w r) = sent w ++ [r].
Proof. reflexivity. Qed.

Lemma issued_nothing {A} (c : M A) w : snd (c w) = w -> issued c w = [].
Proof. unfold issued. intros ->. apply drop_all. Qed.

Lemma issued_one {A} (c : M A) w r :
  snd (c w) = record_request w r -> issued c w = [r].
Proof.
  unfold issued. intros ->. rewrite sent_record_request.
  rewrite drop_app_length. reflexivity.
Qed.

(** ** The dispatch method, unfolded *)

(** What [_call_api] does once the verb names a transport function: one
    request goes out, and the status code of the answer selects the
    outcome. *)
Lemma call_api_unfold self method path files kwargs w verb :
  Runtime.requests_getattr w (Runtime.lower method) =
    Return (Runtime.Function verb) ->
  let r := build_request self verb path files kwargs in
  let w1 := record_request w r in
  _call_api self method path files kwargs w =
    match server w r with
    | Raise e => (Raise e, w1)
    | Return resp =>
        if status_code resp =? 401 then
          (Raise (PwintyError (PStr "Authentication Failed")), w1)
        else if status_code resp =? 404 then
          (Raise (PwintyError
                    (PStr "The specified resource could not be found")), w1)
        else if (status_code resp =? 400) || (status_code resp >=? 500) then
          (match outcome (_get_error_message resp) w1 with
           | Return msg => Raise (PwintyError msg)
           | Raise e => Raise e
           end, w1)
        else (Return resp, w1)
    end.
Proof.
  intros Hverb r w1. subst r w1.
  unfold build_request, _call_api, _get_http_method, bind at 1.
  rewrite Hverb. unfold bind at 1, Runtime.call, Runtime.http.
  destruct (server w _) as [resp|e]; [| reflexivity].
  destruct (status_code resp =? 401); [reflexivity |].
  destruct (status_code resp =? 404); [reflexivity |].
  destruct ((status_code resp =? 400) || (status_code resp >=? 500));
    [| reflexivity].
  unfold bind. rewrite (silent_run _ _ (silent_get_error_message resp)).
  destruct (outcome (_get_error_message resp) _); reflexivity.
Qed.

(** When the verb names no transport function nothing is sent: a name
    the module does not have stops [getattr], and any other attribute
    cannot be called as the dispatch calls it. *)
Lemma call_api_no_verb self method path files kwargs w e :
  Runtime.requests_getattr w (Runtime.lower method) = Raise e ->
  _call_api self method path files kwargs w = (Raise e, w).
Proof.
  intros Hverb. unfold _call_api, _get_http_method, bind at 1.
  rewrite Hverb. reflexivity.
Qed.

Lemma call_api_other_attribute self method path files kwargs w :
  Runtime.requests_getattr w (Runtime.lower method) = Return Runtime.Other ->
  _call_api self method path files kwargs w = (Raise TypeError, w).
Proof.
  intros Hverb. unfold _call_api, _get_http_method, bind at 1.
  rewrite Hverb. reflexivity.
Qed.

(** In either case the world after the call is the world before with at
    most the one request added. *)
Lemma call_api_world self method path files kwargs w :
  snd (_call_api self method path files kwargs w) =
    match Runtime.requests_getattr w (Runtime.lower method) with
    | Return (Runtime.Function verb) =>
        record_request w (build_request self verb path files kwargs)
    | _ => w
    end.
Proof.
  destruct (Runtime.requests_getattr w (Runtime.lower method))
    as [[verb|]|e] eqn:Hv.
  - rewrite (call_api_unfold _ _ _ _ _ _ _ Hv). cbv zeta.
    destruct (server w _) as [resp|e]; [| reflexivity].
    repeat match goal with |- context [if ?b then _ else _] => destruct b end;
      reflexivity.
  - rewrite (call_api_other_attribute _ _ _ _ _ _ Hv). reflexivity.
  - rewrite (call_api_no_verb _ _ _ _ _ _ _ Hv). reflexivity.
Qed.

(** ** Status codes in the dispatch method *)

Section Dispatch.

Variables (self : Pwinty) (method path : string).
Variables (files : option files_value) (kwargs : gmap string pyval).
Variables (w : world) (verb : http_verb) (resp : response).

Hypothesis Hverb :
  Runtime.requests_getattr w (Runtime.lower method) =
    Return (Runtime.Function verb).
Hypothesis Hresp :
  server w (build_request self verb path files kwargs) = Return resp.

Lemma call_api_outcome :
  outcome (_call_api self method path files kwargs) w =
    if status_code resp =? 401 then
      Raise (PwintyError (PStr "Authentication Failed"))
    else if status_code resp =? 404 then
      Raise (PwintyError (PStr "The specified resource could not be found"))
    else if (status_code resp =? 400) || (status_code resp >=? 500) then
      match outcome (_get_error_message resp)
              (record_request w (build_request self verb path files kwargs))
      with
      | Return msg => Raise (PwintyError msg)
      | Raise e => Raise e
      end
    else Return resp.
Proof.
  unfold outcome at 1. rewrite (call_api_unfold _ _ _ _ _ _ _ Hverb).
  cbv zeta. rewrite Hresp.
  repeat match goal with |- context [if ?b then _ else _] => destruct b end;
    reflexivity.
Qed.

Lemma call_api_401 :
  status_code resp = 401 ->
  outcome (_call_api self method path files kwargs) w =
    Raise (PwintyError (PStr "Authentication Failed")).
Proof. intros H. rewrite call_api_outcome, H. reflexivity. Qed.

Lemma call_api_404 :
  status_code resp = 404 ->
  outcome (_call_api self method path files kwargs) w =
    Raise (PwintyError (PStr "The specified resource could not be found")).
Proof. intros H. rewrite call_api_outcome, H. reflexivity. Qed.


Lemma call_api_failure_status :
  status_code resp = 400 \/ 500 <= status_code resp ->
  outcome (_call_api self method path files kwargs) w =
    match outcome (_get_error_message resp)
            (record_request w (build_request self verb path files kwargs))
    with
    | Return msg => Raise (PwintyError msg)
    | Raise e => Raise e
    end.
Proof.
  intros H. rewrite call_api_outcome.
  replace (status_code resp =? 401) with false
    by (symmetry; apply Z.eqb_neq; lia).
  replace (status_code resp =? 404) with false
    by (symmetry; apply Z.eqb_neq; lia).
  replace ((status_code resp =? 400) || (status_code resp >=? 500)) with true;
    [reflexivity |].
  symmetry. apply orb_true_iff. rewrite Z.eqb_eq, Z.geb_leb, Z.leb_le. lia.
Qed.

End Dispatch.

(** The message taken from an error document in the vendor's format. *)
Lemma get_error_message_vendor st d e w :
  dict_get "Error" d = PDict e -> dict_has "Message" e = true ->
  outcome (_get_error_message (mkResponse st (Some (PDict d)))) w =
    Return (dict_get "Message" e).
Proof.
  intros He Hm. unfold outcome, _get_error_message, bind, Runtime.json.
  simpl. rewrite He. destruct e as [|kv e']; [discriminate Hm |].
  simpl truthy. cbv iota. unfold py_in, ret. rewrite Hm. reflexivity.
Qed.

(** The fallback message: a document without a true ['Error'] member,
    or whose ['Error'] object has no ['Message']. *)
Lemma get_error_message_fallback st d w :
  truthy (dict_get "Error" d) = false \/
  (exists e, dict_get "Error" d = PDict e /\ dict_has "Message" e = false) ->
  outcome (_get_error_message (mkResponse st (Some (PDict d)))) w =
    Return (PStr "An unknown error occurred").
Proof.
  intros [Hf | (e & He & Hm)];
    unfold outcome, _get_error_message, bind, Runtime.json; simpl.
  - rewrite Hf. reflexivity.
  - rewrite He. destruct e as [|kv e']; [reflexivity |].
    simpl truthy. cbv iota. unfold py_in, ret. rewrite Hm. reflexivity.
Qed.

(** A JSON body outside the vendor's format can stop the reading of the
    message as well: when the ['Error'] member is a string in which
    ['Message'] occurs, the membership test is true and [error.get]
    fails. *)
Lemma get_error_message_string_error st w :
  outcome (_get_error_message
             (mkResponse st (Some (PDict [("Error", PStr "Message")])))) w =
    Raise AttributeError.
Proof. reflexivity. Qed.

(** The test suite's client on a status 500 with a vendor document. *)
Lemma call_api_vendor_message :
  outcome (_call_api test_client "GET" "/Orders" None ∅)
    (fresh_world (Return (mkResponse 500 (Some (vendor_error "No credit"))))) =
    Raise (PwintyError (PStr "No credit")).
Proof. reflexivity. Qed.

(** C1.  A failure status whose body is not JSON.  The specification
    puts every answer with status 400 or at least 500 under the error of
    the package, with the fallback message when the body carries none;
    in the code [response.json()] raises [ValueError] first, and that is
    what the caller of [_call_api] gets. *)
Theorem call_api_failure_status_not_json
    self method path files kwargs w verb st :
  Runtime.requests_getattr w (Runtime.lower method) =
    Return (Runtime.Function verb) ->
  server w (build_request self verb path files kwargs) =
    Return (mkResponse st None) ->
  st = 400 \/ 500 <= st ->
  outcome (_call_api self method path files kwargs) w = Raise ValueError.
Proof.
  intros Hverb Hresp Hst.
  rewrite (call_api_failure_status _ _ _ _ _ _ _ _ Hverb Hresp Hst).
  reflexivity.
Qed.

Lemma call_api_failure_status_not_json_witness :
  outcome (_call_api test_client "GET" "/Orders" None ∅)
    (fresh_world (Return (mkResponse 502 None))) = Raise ValueError.
Proof.
  apply (call_api_failure_status_not_json test_client "GET" "/Orders" None ∅
           (fresh_world (Return (mkResponse 502 None))) GET 502).
  - reflexivity.
  - reflexivity.
  - right. lia.
Defined.

Lemma call_api_issued self method path files kwargs w verb :
  Runtime.requests_getattr w (Runtime.lower method) =
    Return (Runtime.Function verb) ->
  issued (_call_api self method path files kwargs) w =
    [build_request self verb path files kwargs].
Proof.
  intros Hverb. apply issued_one. rewrite call_api_world, Hverb. reflexivity.
Qed.

(** ** Construction *)

(** C4.  The base URL: host prefix [sandbox] or [api] after the flag,
    then the version segment, which is [v2] when no version is given and
    the given string otherwise. *)
Theorem base_url_resolution (merchant_id apikey : string) :
  (forall v, api (Pwinty_init merchant_id apikey (Some v) true) =
             "https://sandbox.pwinty.com/" +:+ v) /\
  (forall v, api (Pwinty_init merchant_id apikey (Some v) false) =
             "https://api.pwinty.com/" +:+ v) /\
  (forall sandbox, api (Pwinty_init merchant_id apikey None sandbox) =
                   api (Pwinty_init merchant_id apikey (Some "v2") sandbox)) /\
  api (Pwinty_init merchant_id apikey None true) =
    "https://sandbox.pwinty.com/v2" /\
  api (Pwinty_init merchant_id apikey (Some "v3") false) =
    "https://api.pwinty.com/v3".
Proof. repeat split; intros; reflexivity. Qed.

(** ** Body parameters *)

(** C6.  The dispatch method hands its named parameters to the transport
    as they are: with none, the [data] mapping of the request is empty;
    with some, it is that mapping, key by key. *)
Theorem call_api_forwards_body self method path files w verb :
  Runtime.requests_getattr w (Runtime.lower method) =
    Return (Runtime.Function verb) ->
  (exists r, issued (_call_api self method path files ∅) w = [r] /\
             req_data r = ∅) /\
  (forall kwargs : gmap string pyval,
     exists r, issued (_call_api self method path files kwargs) w = [r] /\
               req_data r = kwargs /\
               (forall k, req_data r !! k = kwargs !! k) /\
               req_url r = api self +:+ path /\ req_files r = files).
Proof.
  intros Hverb. split.
  - eexists. split; [apply (call_api_issued _ _ _ _ _ _ _ Hverb) |].
    reflexivity.
  - intros kwargs. eexists.
    split; [apply (call_api_issued _ _ _ _ _ _ _ Hverb) |].
    repeat split.
Qed.

Lemma call_api_forwards_body_witness :
  exists r,
    issued (_call_api test_client "POST" "" None
              (<["order_id" := PInt 23]>
                 (<["address" := PStr "123 Fake St"]> ∅)))
      (fresh_world (Return (mkResponse 200 (Some (PDict []))))) = [r] /\
    req_data r !! "order_id" = Some (PInt 23) /\
    req_data r !! "address" = Some (PStr "123 Fake St").
Proof.
  destruct (call_api_forwards_body test_client "POST" "" None
              (fresh_world (Return (mkResponse 200 (Some (PDict []))))) POST
              eq_refl) as [_ H].
  destruct (H (<["order_id" := PInt 23]>
                 (<["address" := PStr "123 Fake St"]> ∅)))
    as (r & Hr & Hd & _).
  exists r. split; [exact Hr |]. rewrite Hd. split; reflexivity.
Defined.

(** ** What a computation may send *)

Section SendsOnly.

Variable P : request -> Prop.

Lemma sends_only_silent {A} (c : M A) : silent c -> sends_only P c.
Proof.
  intros H w. exists []. rewrite H, app_nil_r. split; [reflexivity | constructor].
Qed.

Lemma sends_only_bind {A B} (c : M A) (k : A -> M B) :
  sends_only P c -> (forall a, sends_only P (k a)) -> sends_only P (bind c k).
Proof.
  intros Hc Hk w. unfold bind.
  destruct (Hc w) as (new1 & Hs1 & HP1).
  destruct (c w) as [[a|e] w1]; simpl in Hs1.
  - destruct (Hk a w1) as (new2 & Hs2 & HP2).
    exists (new1 ++ new2). split.
    + rewrite Hs2, Hs1, app_assoc. reflexivity.
    + apply Forall_app. split; assumption.
  - exists new1. split; assumption.
Qed.

Lemma sends_only_open_r path : sends_only P (Runtime.open_r path).
Proof.
  intros w. exists []. rewrite app_nil_r. split; [| constructor].
  unfold Runtime.open_r. destruct path; try reflexivity.
  destruct (readable w s); reflexivity.
Qed.

Lemma sends_only_call_api self method path files kwargs :
  (forall verb, P (build_request self verb path files kwargs)) ->
  sends_only P (_call_api self method path files kwargs).
Proof.
  intros HP w. rewrite call_api_world.
  destruct (Runtime.requests_getattr w (Runtime.lower method))
    as [[verb|]|e].
  - exists [build_request self verb path files kwargs].
    split; [reflexivity |]. constructor; [apply HP | constructor].
  - exists []. rewrite app_nil_r. split; [reflexivity | constructor].
  - exists []. rewrite app_nil_r. split; [reflexivity | constructor].
Qed.

Lemma silent_spread_kwargs own kwargs : silent (spread_kwargs own kwargs).
Proof.
  unfold spread_kwargs. destruct (existsb _ _); auto with pwinty.
Qed.

Lemma sends_only_files imgfile : sends_only P (add_photo_files imgfile).
Proof.
  unfold add_photo_files. destruct (truthy imgfile).
  - apply sends_only_bind; [apply sends_only_open_r |].
    intros f. apply sends_only_silent, silent_ret.
  - apply sends_only_silent, silent_ret.
Qed.

Lemma sends_only_issued {A} (c : M A) w :
  sends_only P c ->
  sent (snd (c w)) = sent w ++ issued c w /\ Forall P (issued c w).
Proof.
  intros H. destruct (H w) as (new & Hs & HP). unfold issued.
  rewrite Hs, drop_app_length. split; [reflexivity | exact HP].
Qed.

End SendsOnly.

(** Every endpoint method sends only requests built with the client's
    [headers] attribute. *)
Lemma run_sends_own_headers self call :
  sends_only (fun r => req_headers r = headers self) (run self call).
Proof.
  destruct call; simpl run;
    unfold get_orders, get_order, create_order, update_order,
      update_order_status, get_submission_status, get_countries, get_photos,
      get_photo, add_photo, delete_photo, get_catalogue;
    repeat match goal with
      | |- sends_only _ (if ?b then _ else _) => destruct b
      | |- sends_only _ (raise _) => apply sends_only_silent, silent_raise
      | |- sends_only _ (bind (add_photo_files _) _) =>
          apply sends_only_bind; [apply sends_only_files | intros ?]
      | |- sends_only _ (bind (spread_kwargs _ _) _) =>
          apply sends_only_bind;
            [apply sends_only_silent, silent_spread_kwargs | intros ?]
      | |- sends_only _ (bind (_call_api _ _ _ _ _) _) =>
          apply sends_only_bind;
            [apply sends_only_call_api; intros ?; reflexivity | intros ?]
      | |- sends_only _ (Runtime.json _) => apply sends_only_silent, silent_json
      end.
Qed.

(** ** Authentication headers *)

(** The [headers] attribute set by the constructor: the two keys, each
    with the value supplied. *)
Lemma init_headers merchant_id apikey version sandbox :
  let h := headers (Pwinty_init merchant_id apikey version sandbox) in
  h !! "X-Pwinty-REST-API-Key" = Some apikey /\
  h !! "X-Pwinty-MerchantId" = Some merchant_id /\
  dom h = {[ "X-Pwinty-REST-API-Key"; "X-Pwinty-MerchantId" ]}.
Proof.
  simpl. split; [| split].
  - apply lookup_insert_eq.
  - rewrite lookup_insert_ne by discriminate. apply lookup_insert_eq.
  - rewrite !dom_insert_L, dom_empty_L. set_solver.
Qed.

(** C5.  Whatever endpoint method is called, and whatever its arguments
    and the environment, each request it issues has as headers the
    mapping with exactly the two keys [X-Pwinty-REST-API-Key] and
    [X-Pwinty-MerchantId], bound to the API key and the merchant ID the
    client was constructed with; the same holds for a direct call of the
    dispatch method. *)
Theorem auth_headers_on_every_request
    merchant_id apikey version sandbox (w : world) :
  let self := Pwinty_init merchant_id apikey version sandbox in
  let authenticated (r : request) :=
    req_headers r !! "X-Pwinty-REST-API-Key" = Some apikey /\
    req_headers r !! "X-Pwinty-MerchantId" = Some merchant_id /\
    dom (req_headers r) =
      {[ "X-Pwinty-REST-API-Key"; "X-Pwinty-MerchantId" ]} in
  (forall call,
     sent (snd (run self call w)) = sent w ++ issued (run self call) w /\
     Forall authenticated (issued (run self call) w)) /\
  (forall method path files kwargs,
     Forall authenticated (issued (_call_api self method path files kwargs) w)).
Proof.
  intros self authenticated.
  assert (Hauth : forall r, req_headers r = headers self -> authenticated r).
  { intros r Hr. unfold authenticated. rewrite Hr. apply init_headers. }
  split.
  - intros call.
    destruct (sends_only_issued _ _ w (run_sends_own_headers self call))
      as [Hs HP].
    split; [exact Hs |]. eapply Forall_impl; [exact HP | exact Hauth].
  - intros method path files kwargs.
    eapply Forall_impl; [| exact Hauth].
    apply sends_only_issued, sends_only_call_api. intros verb. reflexivity.
Qed.

(** ** Endpoint methods, unfolded *)

(** The decoding of a body and the reading of an error message do not
    depend on the world they run in. *)
Lemma outcome_json resp w w' :
  outcome (Runtime.json resp) w = outcome (Runtime.json resp) w'.
Proof. unfold outcome, Runtime.json. destruct (body resp); reflexivity. Qed.

Lemma outcome_get_error_message resp w w' :
  outcome (_get_error_message resp) w = outcome (_get_error_message resp) w'.
Proof.
  unfold outcome, _get_error_message, bind, Runtime.json.
  destruct (body resp) as [doc|]; [| reflexivity].
  destruct doc; try reflexivity. simpl.
  destruct (truthy (dict_get "Error" items)); [| reflexivity].
  destruct (dict_get "Error" items); try reflexivity; simpl.
  - destruct (str_contains "Message" s); reflexivity.
  - destruct (existsb (eq_str "Message") items0); reflexivity.
  - destruct (dict_has "Message" items0); reflexivity.
Qed.

(** An endpoint method is the dispatch followed by a step [k] that
    sends nothing: one request goes out and the answer decides. *)
Lemma call_then_run self method path files kwargs
    (k : response -> M pyval) w verb :
  Runtime.requests_getattr w (Runtime.lower method) =
    Return (Runtime.Function verb) ->
  (forall resp, silent (k resp)) ->
  let r := build_request self verb path files kwargs in
  let w1 := record_request w r in
  bind (_call_api self method path files kwargs) k w =
    (match server w r with
     | Raise e => Raise e
     | Return resp =>
         if status_code resp =? 401 then
           Raise (PwintyError (PStr "Authentication Failed"))
         else if status_code resp =? 404 then
           Raise (PwintyError
                    (PStr "The specified resource could not be found"))
         else if (status_code resp =? 400) || (status_code resp >=? 500) then
           match outcome (_get_error_message resp) w1 with
           | Return msg => Raise (PwintyError msg)
           | Raise e => Raise e
           end
         else outcome (k resp) w1
     end, w1).
Proof.
  intros Hverb Hk r w1. unfold bind at 1.
  rewrite (call_api_unfold _ _ _ _ _ _ _ Hverb). cbv zeta. fold r. fold w1.
  destruct (server w r) as [resp|e]; [| reflexivity].
  destruct (status_code resp =? 401); [reflexivity |].
  destruct (status_code resp =? 404); [reflexivity |].
  destruct ((status_code resp =? 400) || (status_code resp >=? 500)).
  - destruct (outcome (_get_error_message resp) w1); reflexivity.
  - rewrite (silent_run _ w1 (Hk resp)). reflexivity.
Qed.

Lemma silent_check_403 (e : exn) resp :
  silent (if status_code resp =? 403 then raise e else Runtime.json resp).
Proof. destruct (status_code resp =? 403); auto with pwinty. Qed.

Lemma issued_appended {A} (c : M A) w new :
  sent (snd (c w)) = sent w ++ new -> issued c w = new.
Proof. unfold issued. intros ->. apply drop_app_length. Qed.

(** ** [add_photo], unfolded *)

Section AddPhoto.

Variables (self : Pwinty) (order_id : ident).
Variables (ptype url copies sizing price_to_user md5hash imgfile : pyval).

Let path : string := "/Orders/" +:+ format_id order_id +:+ "/Photos".
Let data : gmap string pyval :=
  add_photo_data ptype url copies sizing price_to_user md5hash.
Let call : M pyval :=
  add_photo self order_id ptype url copies sizing price_to_user md5hash
    imgfile.

(** The part of [add_photo] after the [files] mapping is built. *)
Let send (files : option files_value) : M pyval :=
  bind (_call_api self "POST" path files data)
    (fun response =>
       if status_code response =? 403 then
         raise (PwintyError (PStr "Cannot add photos to this order"))
       else Runtime.json response).

Lemma add_photo_run w :
  call w =
    if is_None url && is_None imgfile then
      (Raise (PwintyError (PStr "File or URL for the image is required")), w)
    else if negb (is_None url) && negb (is_None imgfile) then
      (Raise (PwintyError (PStr "Cannot use both a URL and a file")), w)
    else if truthy imgfile then
      match imgfile with
      | PStr p =>
          if readable w p
          then send (Some (Opened (<["file" := length (handles w)]> ∅)))
                 (record_open w p)
          else (Raise IOError, w)
      | _ => (Raise TypeError, w)
      end
    else send None w.
Proof.
  unfold call, add_photo.
  destruct (is_None url && is_None imgfile); [reflexivity |].
  destruct (negb (is_None url) && negb (is_None imgfile)); [reflexivity |].
  unfold add_photo_files. destruct (truthy imgfile) eqn:Himg.
  - unfold bind at 1. unfold bind at 1. unfold Runtime.open_r.
    destruct imgfile; try reflexivity.
    destruct (readable w s); reflexivity.
  - reflexivity.
Qed.

Lemma send_run files w :
  let r := build_request self POST path files data in
  send files w =
    (match server w r with
     | Raise e => Raise e
     | Return resp =>
         if status_code resp =? 401 then
           Raise (PwintyError (PStr "Authentication Failed"))
         else if status_code resp =? 404 then
           Raise (PwintyError
                    (PStr "The specified resource could not be found"))
         else if (status_code resp =? 400) || (status_code resp >=? 500) then
           match outcome (_get_error_message resp) (record_request w r) with
           | Return msg => Raise (PwintyError msg)
           | Raise e => Raise e
           end
         else if status_code resp =? 403 then
           Raise (PwintyError (PStr "Cannot add photos to this order"))
         else outcome (Runtime.json resp) (record_request w r)
     end, record_request w r).
Proof.
  intros r. unfold send.
  rewrite (call_then_run self "POST" path files data _ w POST eq_refl)
    by (intros resp; apply silent_check_403).
  cbv zeta. fold r. f_equal.
  destruct (server w r) as [resp|e]; [| reflexivity].
  destruct (status_code resp =? 403); reflexivity.
Qed.

(** The requests [add_photo] issues: none when the validation rejects
    the arguments or the file cannot be opened, one otherwise, with the
    file object attached when [imgfile] is true. *)
Lemma add_photo_issued w :
  issued call w =
    if xorb (is_None url) (is_None imgfile) then
      if truthy imgfile then
        if openable w imgfile then
          [build_request self POST path
             (Some (Opened (<["file" := length (handles w)]> ∅))) data]
        else []
      else [build_request self POST path None data]
    else [].
Proof.
  assert (Hsend : forall files w', sent w' = sent w ->
            issued (fun _ => send files w') w =
              [build_request self POST path files data]).
  { intros files w' Hw'. apply issued_appended. rewrite send_run. simpl.
    rewrite Hw'. reflexivity. }
  unfold issued in *. rewrite add_photo_run.
  destruct (is_None url) eqn:Hu, (is_None imgfile) eqn:Hi; simpl;
    try apply drop_all.
  - destruct imgfile; try discriminate Hi; simpl;
      try apply drop_all; try (apply (Hsend None w); reflexivity).
    + destruct b; simpl; [apply drop_all | apply (Hsend None w); reflexivity].
    + destruct (negb (n =? 0)); simpl;
        [apply drop_all | apply (Hsend None w); reflexivity].
    + destruct (negb (s =? "")%string); simpl.
      * destruct (readable w s); [| apply drop_all].
        apply (Hsend _ (record_open w s)). reflexivity.
      * apply (Hsend None w). reflexivity.
    + destruct items; simpl;
        [apply (Hsend None w); reflexivity | apply drop_all].
    + destruct items; simpl;
        [apply (Hsend None w); reflexivity | apply drop_all].
  - destruct imgfile; try discriminate Hi. simpl.
    apply (Hsend None w). reflexivity.
Qed.

End AddPhoto.

Lemma is_None_true v : is_None v = true <-> v = PNone.
Proof. destruct v; simpl; split; congruence. Qed.

Lemma is_None_false v : is_None v = false <-> v <> PNone.
Proof. destruct v; simpl; split; congruence. Qed.

(** The six body fields of [add_photo]. *)
Lemma add_photo_data_fields ptype url copies sizing price_to_user md5hash :
  let d := add_photo_data ptype url copies sizing price_to_user md5hash in
  d !! "type" = Some ptype /\
  d !! "url" = Some url /\
  d !! "copies" = Some (py_or copies (PInt 1)) /\
  d !! "sizing" = Some (py_or sizing (PStr "Crop")) /\
  d !! "priceToUser" = Some price_to_user /\
  d !! "md5Hash" = Some md5hash /\
  dom d = {[ "type"; "url"; "copies"; "sizing"; "priceToUser"; "md5Hash" ]}.
Proof.
  unfold add_photo_data. cbv zeta.
  repeat apply conj;
    try (repeat (rewrite lookup_insert_ne by discriminate);
         apply lookup_insert_eq).
  rewrite !dom_insert_L, dom_empty_L. set_solver.
Qed.

(** What is known of a request issued by [add_photo]. *)
Lemma add_photo_request self order_id ptype url copies sizing price_to_user
    md5hash imgfile w r :
  r ∈ issued (add_photo self order_id ptype url copies sizing price_to_user
                md5hash imgfile) w ->
  xorb (is_None url) (is_None imgfile) = true /\
  req_method r = POST /\
  req_url r = api self +:+ "/Orders/" +:+ format_id order_id +:+ "/Photos" /\
  req_data r =
    add_photo_data ptype url copies sizing price_to_user md5hash /\
  req_headers r = headers self /\
  ((truthy imgfile = false /\ req_files r = None) \/
   (truthy imgfile = true /\ openable w imgfile = true /\
    req_files r = Some (Opened (<["file" := length (handles w)]> ∅)))).
Proof.
  rewrite add_photo_issued.
  destruct (xorb (is_None url) (is_None imgfile));
    [| intros H; apply elem_of_nil in H; contradiction].
  destruct (truthy imgfile); [destruct (openable w imgfile) |];
    intros H; try (apply elem_of_nil in H; contradiction);
    apply list_elem_of_singleton in H; subst r; simpl;
    repeat split; auto.
Qed.

(** The two rejections of the validation, and the failure of [open]:
    in each the world is left as it was. *)
Lemma add_photo_rejects_neither self order_id ptype copies sizing
    price_to_user md5hash w :
  add_photo self order_id ptype PNone copies sizing price_to_user md5hash
    PNone w =
  (Raise (PwintyError (PStr "File or URL for the image is required")), w).
Proof. reflexivity. Qed.

Lemma add_photo_rejects_both self order_id ptype url copies sizing
    price_to_user md5hash imgfile w :
  url <> PNone -> imgfile <> PNone ->
  add_photo self order_id ptype url copies sizing price_to_user md5hash
    imgfile w =
  (Raise (PwintyError (PStr "Cannot use both a URL and a file")), w).
Proof.
  intros Hu Hi. apply is_None_false in Hu, Hi.
  unfold add_photo. rewrite Hu, Hi. reflexivity.
Qed.

Lemma add_photo_open_fails self order_id ptype url copies sizing
    price_to_user md5hash imgfile w :
  xorb (is_None url) (is_None imgfile) = true ->
  truthy imgfile = true -> openable w imgfile = false ->
  exists e, (e = IOError \/ e = TypeError) /\
    add_photo self order_id ptype url copies sizing price_to_user md5hash
      imgfile w = (Raise e, w).
Proof.
  intros Hx Ht Ho. rewrite add_photo_run, Ht.
  destruct (is_None url), (is_None imgfile); try discriminate Hx; simpl;
    destruct imgfile; simpl in Ho; try rewrite Ho; eauto.
Qed.

(** ** Validation and defaults of [add_photo] *)

(** C2.  [add_photo] with neither [url] nor [imgfile], or with both,
    raises the validation error and leaves the environment untouched:
    no request is issued.  With exactly one of the two it goes on: it
    opens the file when [imgfile] is true (and stops there when [open]
    fails), then issues one POST to the photos path of the order, in
    whose body [copies] is 1 and [sizing] is ['Crop'] when the argument
    is unset, and the argument itself when it is a true value. *)
Theorem add_photo_validation self order_id ptype url copies sizing
    price_to_user md5hash imgfile w :
  let call := add_photo self order_id ptype url copies sizing price_to_user
                md5hash imgfile in
  (url = PNone -> imgfile = PNone ->
   call w =
     (Raise (PwintyError (PStr "File or URL for the image is required")), w)
   /\ issued call w = []) /\
  (url <> PNone -> imgfile <> PNone ->
   call w =
     (Raise (PwintyError (PStr "Cannot use both a URL and a file")), w)
   /\ issued call w = []) /\
  ((url = PNone /\ imgfile <> PNone) \/ (url <> PNone /\ imgfile = PNone) ->
   (truthy imgfile = true /\ openable w imgfile = false /\
    exists e, (e = IOError \/ e = TypeError) /\ call w = (Raise e, w)) \/
   (exists r, issued call w = [r] /\
      req_method r = POST /\
      req_url r =
        api self +:+ "/Orders/" +:+ format_id order_id +:+ "/Photos" /\
      (copies = PNone -> req_data r !! "copies" = Some (PInt 1)) /\
      (sizing = PNone -> req_data r !! "sizing" = Some (PStr "Crop")) /\
      (truthy copies = true -> req_data r !! "copies" = Some copies) /\
      (truthy sizing = true -> req_data r !! "sizing" = Some sizing))).
Proof.
  intros call. split; [| split].
  - intros -> ->. split; [apply add_photo_rejects_neither |].
    apply issued_nothing. reflexivity.
  - intros Hu Hi. unfold call.
    split; [apply add_photo_rejects_both; assumption |].
    apply issued_nothing. rewrite add_photo_rejects_both by assumption.
    reflexivity.
  - intros Hone.
    assert (Hx : xorb (is_None url) (is_None imgfile) = true).
    { destruct Hone as [[Hu Hi] | [Hu Hi]].
      - apply is_None_true in Hu. apply is_None_false in Hi.
        rewrite Hu, Hi. reflexivity.
      - apply is_None_false in Hu. apply is_None_true in Hi.
        rewrite Hu, Hi. reflexivity. }
    destruct (truthy imgfile && negb (openable w imgfile)) eqn:Hfail.
    + left. apply andb_true_iff in Hfail as [Ht Ho].
      apply negb_true_iff in Ho. repeat split; try assumption.
      apply add_photo_open_fails; assumption.
    + right.
      assert (Hr : exists r, issued call w = [r]).
      { unfold call. rewrite add_photo_issued, Hx.
        destruct (truthy imgfile); [| eauto].
        destruct (openable w imgfile); [eauto | discriminate Hfail]. }
      destruct Hr as [r Hr]. exists r. split; [exact Hr |].
      assert (Hin : r ∈ issued call w)
        by (rewrite Hr; apply list_elem_of_singleton; reflexivity).
      apply add_photo_request in Hin as (_ & Hm & Hurl & Hd & _).
      pose proof (add_photo_data_fields ptype url copies sizing
                    price_to_user md5hash) as (_ & _ & Hc & Hs & _).
      rewrite Hd. repeat split; try assumption.
      * intros ->. exact Hc.
      * intros ->. exact Hs.
      * intros Ht. rewrite Hc. unfold py_or. rewrite Ht. reflexivity.
      * intros Ht. rewrite Hs. unfold py_or. rewrite Ht. reflexivity.
Qed.

(** C8.  The defaults of [add_photo] replace every false value, not only
    [None]: the body of an issued request has [copies or 1] and
    [sizing or 'Crop'], so [copies=0] goes out as 1 and [sizing='']
    as ['Crop'], and neither 0 nor the empty string is ever sent. *)
Theorem add_photo_falsy_defaults self order_id ptype url copies sizing
    price_to_user md5hash imgfile w r :
  r ∈ issued (add_photo self order_id ptype url copies sizing price_to_user
                md5hash imgfile) w ->
  req_data r !! "copies" = Some (if truthy copies then copies else PInt 1) /\
  req_data r !! "sizing" =
    Some (if truthy sizing then sizing else PStr "Crop") /\
  (copies = PInt 0 -> req_data r !! "copies" = Some (PInt 1)) /\
  (sizing = PStr "" -> req_data r !! "sizing" = Some (PStr "Crop")) /\
  req_data r !! "copies" <> Some (PInt 0) /\
  req_data r !! "sizing" <> Some (PStr "").
Proof.
  intros Hin. apply add_photo_request in Hin as (_ & _ & _ & Hd & _).
  pose proof (add_photo_data_fields ptype url copies sizing
                price_to_user md5hash) as (_ & _ & Hc & Hs & _).
  rewrite Hd, Hc, Hs. unfold py_or. repeat split.
  - intros ->. reflexivity.
  - intros ->. reflexivity.
  - destruct (truthy copies) eqn:Ht; [| discriminate].
    intros [= ->]. discriminate Ht.
  - destruct (truthy sizing) eqn:Ht; [| discriminate].
    intros [= ->]. discriminate Ht.
Qed.

Lemma add_photo_validation_witness :
  let ok := fresh_world (Return (mkResponse 200 (Some (PDict [])))) in
  let photo url imgfile :=
    add_photo test_client (IdInt 23) (PStr "4x6") url PNone PNone PNone PNone
      imgfile in
  issued (photo PNone PNone) ok = [] /\
  issued (photo (PStr "http://example.com/a.jpg") (PStr "photo.jpg")) ok = [] /\
  exists r, issued (photo (PStr "http://example.com/a.jpg") PNone) ok = [r] /\
            req_data r !! "copies" = Some (PInt 1) /\
            req_data r !! "sizing" = Some (PStr "Crop").
Proof.
  intros ok photo. split; [| split].
  - destruct (add_photo_validation test_client (IdInt 23) (PStr "4x6") PNone
                PNone PNone PNone PNone PNone ok) as (H & _).
    apply (H eq_refl eq_refl).
  - destruct (add_photo_validation test_client (IdInt 23) (PStr "4x6")
                (PStr "http://example.com/a.jpg") PNone PNone PNone PNone
                (PStr "photo.jpg") ok) as (_ & H & _).
    apply H; discriminate.
  - destruct (add_photo_validation test_client (IdInt 23) (PStr "4x6")
                (PStr "http://example.com/a.jpg") PNone PNone PNone PNone
                PNone ok) as (_ & _ & H).
    assert (Hone : (PStr "http://example.com/a.jpg" = PNone /\ PNone <> PNone)
                   \/ (PStr "http://example.com/a.jpg" <> PNone /\
                       PNone = PNone))
      by (right; split; [discriminate | reflexivity]).
    destruct (H Hone) as [(Ht & _) | (r & Hr & _ & _ & Hc & Hs & _)].
    + discriminate Ht.
    + exists r. split; [exact Hr |]. split; [apply Hc | apply Hs]; reflexivity.
Defined.

Lemma add_photo_falsy_defaults_witness :
  let r := build_request test_client POST "/Orders/23/Photos" None
             (add_photo_data (PStr "4x6") (PStr "http://example.com/a.jpg")
                (PInt 0) (PStr "") PNone PNone) in
  r ∈ issued (add_photo test_client (IdInt 23) (PStr "4x6")
                (PStr "http://example.com/a.jpg") (PInt 0) (PStr "") PNone
                PNone PNone)
        (fresh_world (Return (mkResponse 200 (Some (PDict []))))) /\
  req_data r !! "copies" = Some (PInt 1) /\
  req_data r !! "sizing" = Some (PStr "Crop").
Proof.
  intros r.
  assert (Hin : r ∈ issued (add_photo test_client (IdInt 23) (PStr "4x6")
                  (PStr "http://example.com/a.jpg") (PInt 0) (PStr "") PNone
                  PNone PNone)
                  (fresh_world (Return (mkResponse 200 (Some (PDict [])))))).
  { rewrite add_photo_issued. simpl.
    apply list_elem_of_singleton. reflexivity. }
  split; [exact Hin |].
  destruct (add_photo_falsy_defaults _ _ _ _ _ _ _ _ _ _ _ Hin)
    as (_ & _ & Hc & Hs & _).
  split; [apply Hc | apply Hs]; reflexivity.
Defined.

(** C9.  The validation of [add_photo] looks at [None] only.  It raises
    the 'required' error, before anything is sent, exactly when [url]
    and [imgfile] are both [None], and the 'cannot use both' error
    exactly when neither is [None]; an empty string counts as given.
    With [url=None] and [imgfile=''] the call passes the validation,
    attaches no file, since the empty string is false, and issues a
    request whose body has [url] [None] and which carries no file. *)
Theorem add_photo_validation_tests_None self order_id ptype copies sizing
    price_to_user md5hash w :
  let photo url imgfile :=
    add_photo self order_id ptype url copies sizing price_to_user md5hash
      imgfile in
  (forall url imgfile,
     photo url imgfile w =
       (Raise (PwintyError (PStr "File or URL for the image is required")), w)
     <-> url = PNone /\ imgfile = PNone) /\
  (forall url imgfile,
     photo url imgfile w =
       (Raise (PwintyError (PStr "Cannot use both a URL and a file")), w)
     <-> url <> PNone /\ imgfile <> PNone) /\
  (exists r, issued (photo PNone (PStr "")) w = [r] /\
             req_files r = None /\ req_data r !! "url" = Some PNone) /\
  photo (PStr "") (PStr "") w =
    (Raise (PwintyError (PStr "Cannot use both a URL and a file")), w).
Proof.
  intros photo.
  assert (Hcases : forall url imgfile e,
            photo url imgfile w = (Raise (PwintyError e), w) ->
            xorb (is_None url) (is_None imgfile) = false).
  { intros url imgfile e Hrun.
    destruct (xorb (is_None url) (is_None imgfile)) eqn:Hx; [| reflexivity].
    assert (Hnone : issued (photo url imgfile) w = [])
      by (apply issued_nothing; rewrite Hrun; reflexivity).
    unfold photo in Hnone. rewrite add_photo_issued, Hx in Hnone.
    destruct (truthy imgfile) eqn:Ht; [| discriminate Hnone].
    destruct (openable w imgfile) eqn:Ho; [discriminate Hnone |].
    destruct (add_photo_open_fails self order_id ptype url copies sizing
                price_to_user md5hash imgfile w Hx Ht Ho)
      as (e' & [-> | ->] & He'); unfold photo in Hrun; congruence. }
  repeat apply conj.
  - intros url imgfile. split.
    + intros Hrun. pose proof (Hcases _ _ _ Hrun) as Hx.
      destruct (is_None url) eqn:Hu, (is_None imgfile) eqn:Hi;
        try discriminate Hx.
      * apply is_None_true in Hu, Hi. split; assumption.
      * apply is_None_false in Hu, Hi. unfold photo in Hrun.
        rewrite add_photo_rejects_both in Hrun by assumption.
        discriminate Hrun.
    + intros [-> ->]. reflexivity.
  - intros url imgfile. split.
    + intros Hrun. pose proof (Hcases _ _ _ Hrun) as Hx.
      destruct (is_None url) eqn:Hu, (is_None imgfile) eqn:Hi;
        try discriminate Hx.
      * apply is_None_true in Hu, Hi. subst. discriminate Hrun.
      * apply is_None_false in Hu, Hi. split; assumption.
    + intros [Hu Hi]. apply add_photo_rejects_both; assumption.
  - eexists. split; [unfold photo; rewrite add_photo_issued; reflexivity |].
    split; [reflexivity |].
    apply (add_photo_data_fields ptype PNone copies sizing price_to_user
             md5hash).
  - reflexivity.
Qed.

Lemma add_photo_validation_tests_None_witness :
  let ok := fresh_world (Return (mkResponse 200 (Some (PDict [])))) in
  let photo url imgfile :=
    add_photo test_client (IdInt 23) (PStr "4x6") url PNone PNone PNone PNone
      imgfile in
  photo PNone PNone ok =
    (Raise (PwintyError (PStr "File or URL for the image is required")), ok) /\
  photo (PStr "") (PStr "photo.jpg") ok =
    (Raise (PwintyError (PStr "Cannot use both a URL and a file")), ok) /\
  exists r, issued (photo PNone (PStr "")) ok = [r] /\ req_files r = None /\
            req_data r !! "url" = Some PNone.
Proof.
  intros ok photo.
  destruct (add_photo_validation_tests_None test_client (IdInt 23)
              (PStr "4x6") PNone PNone PNone PNone ok) as (H1 & H2 & H3 & _).
  split; [| split].
  - apply H1. split; reflexivity.
  - apply H2. split; discriminate.
  - exact H3.
Defined.

(** C10.  The body of every request issued by [add_photo] has exactly
    the six keys [type], [url], [copies], [sizing], [priceToUser] and
    [md5Hash]; [type], [url], [priceToUser] and [md5Hash] are bound to
    the arguments as given, so to [None] when not supplied, and with a
    local file, where [url] must be [None], the key [url] is there with
    the value [None]. *)
Theorem add_photo_body_keys self order_id ptype url copies sizing
    price_to_user md5hash imgfile w r :
  r ∈ issued (add_photo self order_id ptype url copies sizing price_to_user
                md5hash imgfile) w ->
  dom (req_data r) =
    {[ "type"; "url"; "copies"; "sizing"; "priceToUser"; "md5Hash" ]} /\
  req_data r !! "type" = Some ptype /\
  req_data r !! "url" = Some url /\
  req_data r !! "priceToUser" = Some price_to_user /\
  req_data r !! "md5Hash" = Some md5hash /\
  is_Some (req_data r !! "copies") /\
  is_Some (req_data r !! "sizing") /\
  (imgfile <> PNone -> req_data r !! "url" = Some PNone) /\
  (req_files r <> None -> req_data r !! "url" = Some PNone).
Proof.
  intros Hin.
  apply add_photo_request in Hin as (Hx & _ & _ & Hd & _ & Hfiles).
  pose proof (add_photo_data_fields ptype url copies sizing
                price_to_user md5hash) as (Hty & Hurl & Hc & Hs & Hp & Hm & Hdom).
  rewrite Hd.
  assert (Hfile : imgfile <> PNone -> url = PNone).
  { intros Hi. apply is_None_false in Hi. rewrite Hi in Hx.
    apply is_None_true. destruct (is_None url); [reflexivity | discriminate]. }
  repeat apply conj; try assumption.
  - rewrite Hc. eauto.
  - rewrite Hs. eauto.
  - intros Hi. rewrite Hurl, (Hfile Hi). reflexivity.
  - intros Hf. rewrite Hurl, Hfile; [reflexivity |].
    destruct Hfiles as [[_ Hnone] | [Ht _]]; [contradiction |].
    intros ->. discriminate Ht.
Qed.

Lemma add_photo_body_keys_witness :
  let r := build_request test_client POST "/Orders/23/Photos"
             (Some (Opened (<["file" := 0%nat]> ∅)))
             (add_photo_data (PStr "4x6") PNone PNone PNone PNone PNone) in
  r ∈ issued (add_photo test_client (IdInt 23) (PStr "4x6") PNone PNone PNone
                PNone PNone (PStr "photo.jpg"))
        (fresh_world (Return (mkResponse 200 (Some (PDict []))))) /\
  dom (req_data r) =
    {[ "type"; "url"; "copies"; "sizing"; "priceToUser"; "md5Hash" ]} /\
  req_data r !! "url" = Some PNone.
Proof.
  intros r.
  assert (Hin : r ∈ issued (add_photo test_client (IdInt 23) (PStr "4x6")
                  PNone PNone PNone PNone PNone (PStr "photo.jpg"))
                  (fresh_world (Return (mkResponse 200 (Some (PDict [])))))).
  { rewrite add_photo_issued. simpl.
    apply list_elem_of_singleton. reflexivity. }
  split; [exact Hin |].
  destruct (add_photo_body_keys _ _ _ _ _ _ _ _ _ _ _ Hin)
    as (Hdom & _ & Hurl & _).
  split; [exact Hdom | exact Hurl].
Defined.

(** ** The file object of [add_photo] *)

(** The handle table after [add_photo]: one more entry, open, when the
    call gets to open the file; unchanged otherwise. *)
Lemma add_photo_handles self order_id ptype url copies sizing price_to_user
    md5hash imgfile w :
  handles (snd (add_photo self order_id ptype url copies sizing price_to_user
                  md5hash imgfile w)) =
    match imgfile with
    | PStr p =>
        if xorb (is_None url) (is_None imgfile) && truthy imgfile
           && readable w p
        then handles w ++ [(p, true)]
        else handles w
    | _ => handles w
    end.
Proof.
  rewrite add_photo_run.
  destruct (is_None url) eqn:Hu, (is_None imgfile) eqn:Hi; simpl;
    try (destruct imgfile; reflexivity).
  - destruct (truthy imgfile) eqn:Ht.
    + destruct imgfile; try reflexivity.
      destruct (readable w s); [| reflexivity].
      rewrite send_run. reflexivity.
    + rewrite send_run. destruct imgfile; reflexivity.
  - destruct imgfile; try discriminate Hi. simpl.
    rewrite send_run. reflexivity.
Qed.

(** C7, as the code has it.  [add_photo] closes nothing: a file object
    that was open before the call is open after it, and the file object
    attached to a request that [add_photo] issued is still open when
    [add_photo] is done, whatever the answer and whether the call
    returns or raises. *)
Theorem add_photo_leaves_file_open self order_id ptype url copies sizing
    price_to_user md5hash imgfile w :
  let call := add_photo self order_id ptype url copies sizing price_to_user
                md5hash imgfile in
  (forall h, Runtime.is_open w h = Some true ->
             Runtime.is_open (snd (call w)) h = Some true) /\
  (forall r h, r ∈ issued call w ->
               req_files r = Some (Opened (<["file" := h]> ∅)) ->
               Runtime.is_open (snd (call w)) h = Some true).
Proof.
  intros call. split.
  - intros h Hopen. unfold Runtime.is_open in *. unfold call.
    rewrite add_photo_handles.
    destruct imgfile; try assumption.
    destruct (_ && _); [| assumption].
    rewrite lookup_app_l; [assumption |].
    destruct (handles w !! h) eqn:Hh; [| discriminate Hopen].
    eapply lookup_lt_Some. exact Hh.
  - intros r h Hin Hfiles.
    apply add_photo_request in Hin as (Hx & _ & _ & _ & _ & Hf).
    destruct Hf as [[_ Hnone] | (Ht & Ho & Hsome)]; [congruence |].
    assert (h = length (handles w)) as ->.
    { rewrite Hfiles in Hsome.
      apply (f_equal (fun o : option files_value =>
                        match o with
                        | Some (Opened m) => m !! "file"
                        | _ => None
                        end)) in Hsome.
      rewrite !lookup_insert_eq in Hsome. congruence. }
    unfold Runtime.is_open, call. rewrite add_photo_handles.
    destruct imgfile; try discriminate Ho. simpl in Ho.
    rewrite Hx, Ht, Ho. simpl.
    rewrite list_lookup_middle by reflexivity. reflexivity.
Qed.

Lemma add_photo_leaves_file_open_witness :
  Runtime.is_open
    (snd (add_photo test_client (IdInt 23) (PStr "4x6") PNone PNone PNone
            PNone PNone (PStr "photo.jpg")
            (fresh_world (Return (mkResponse 500 None))))) 0%nat = Some true.
Proof.
  destruct (add_photo_leaves_file_open test_client (IdInt 23) (PStr "4x6")
              PNone PNone PNone PNone PNone (PStr "photo.jpg")
              (fresh_world (Return (mkResponse 500 None)))) as [_ H].
  apply (H (build_request test_client POST "/Orders/23/Photos"
              (Some (Opened (<["file" := 0%nat]> ∅)))
              (add_photo_data (PStr "4x6") PNone PNone PNone PNone PNone)));
    [| reflexivity].
  rewrite add_photo_issued. simpl. apply list_elem_of_singleton. reflexivity.
Defined.

(** C7, as stated, fails: it has the file object that [add_photo]
    attaches closed once the call is done.  For an upload of [photo.jpg]
    answered with status 200 the handle is open after the call. *)
Lemma add_photo_closes_file_counterexample :
  ~ (forall self order_id ptype url copies sizing price_to_user md5hash
       imgfile w r h,
       r ∈ issued (add_photo self order_id ptype url copies sizing
                     price_to_user md5hash imgfile) w ->
       req_files r = Some (Opened (<["file" := h]> ∅)) ->
       Runtime.is_open
         (snd (add_photo self order_id ptype url copies sizing price_to_user
                 md5hash imgfile w)) h = Some false).
Proof.
  intros Hclosed.
  specialize (Hclosed test_client (IdInt 23) (PStr "4x6") PNone PNone PNone
                PNone PNone (PStr "photo.jpg")
                (fresh_world (Return (mkResponse 200 (Some (PDict [])))))
                (build_request test_client POST "/Orders/23/Photos"
                   (Some (Opened (<["file" := 0%nat]> ∅)))
                   (add_photo_data (PStr "4x6") PNone PNone PNone PNone PNone))
                0%nat).
  assert (Hopen : Runtime.is_open
            (snd (add_photo test_client (IdInt 23) (PStr "4x6") PNone PNone
                    PNone PNone PNone (PStr "photo.jpg")
                    (fresh_world (Return (mkResponse 200 (Some (PDict [])))))))
            0%nat = Some true).
  { unfold Runtime.is_open. rewrite add_photo_handles. reflexivity. }
  rewrite Hclosed in Hopen; [discriminate Hopen | | reflexivity].
  rewrite add_photo_issued. simpl. apply list_elem_of_singleton. reflexivity.
Qed.

(** ** Every endpoint method as one dispatch *)

Lemma silent_decode_unless_403 own resp : silent (decode_unless_403 own resp).
Proof.
  destruct own as [msg|]; simpl; [apply silent_check_403 | apply silent_json].
Qed.

Lemma outcome_decode_unless_403 own resp w w' :
  outcome (decode_unless_403 own resp) w =
  outcome (decode_unless_403 own resp) w'.
Proof.
  destruct own as [msg|]; simpl; [| apply outcome_json].
  destruct (status_code resp =? 403); [reflexivity | apply outcome_json].
Qed.

(** A call that passes its local checks is one dispatch followed by the
    method's own check and the decoding, run in a world that differs
    from the first at most by the file that [add_photo] opened; a call
    that does not pass raises and leaves the world as it was. *)
Lemma run_shape self call w :
  if passes_local_checks w call then
    exists method verb path files body w',
      Runtime.requests_getattr w' (Runtime.lower method) =
        Return (Runtime.Function verb) /\
      sent w' = sent w /\ server w' = server w /\
      run self call w =
        bind (_call_api self method path files body)
          (decode_unless_403 (own_error call)) w'
  else exists e, run self call w = (Raise e, w).
Proof.
  destruct call; unfold passes_local_checks, run;
    try (eexists _, _, _, _, _, w;
         split; [| split; [reflexivity | split; reflexivity]];
         reflexivity).
  - unfold create_order, bind at 1, spread_kwargs.
    change (["self"] ++ ["method"; "api"]) with ["self"; "method"; "api"].
    destruct (existsb (has_key kwargs) ["self"; "method"; "api"]);
      cbn [negb]; [eauto |].
    eexists _, _, _, _, _, w.
    split; [| split; [reflexivity | split; reflexivity]]; reflexivity.
  - unfold update_order, bind at 1, spread_kwargs.
    change (["self"; "order_id"] ++ ["method"; "api"])
      with ["self"; "order_id"; "method"; "api"].
    destruct (existsb (has_key kwargs) ["self"; "order_id"; "method"; "api"]);
      cbn [negb]; [eauto |].
    eexists _, _, _, _, _, w.
    split; [| split; [reflexivity | split; reflexivity]]; reflexivity.
  - rewrite add_photo_run.
    destruct (is_None url) eqn:Hu, (is_None imgfile) eqn:Hi; simpl; eauto.
    + destruct (truthy imgfile) eqn:Ht; simpl.
      * destruct imgfile; simpl; eauto.
        destruct (readable w s); [| eauto].
        eexists _, _, _, _, _, (record_open w s).
        split; [| split; [reflexivity | split; reflexivity]]; reflexivity.
      * eexists _, _, _, _, _, w.
        split; [| split; [reflexivity | split; reflexivity]]; reflexivity.
    + destruct imgfile; try discriminate Hi. simpl.
      eexists _, _, _, _, _, w.
      split; [| split; [reflexivity | split; reflexivity]]; reflexivity.
Qed.


(** The outcome of a call in terms of the answer to its request: a
    failure of the transport comes out as it is; on a response, first
    the status checks of the dispatch, then the method's own. *)
Lemma run_answered self call w ans :
  answer (run self call) w = Some ans ->
  outcome (run self call) w =
    match ans with
    | Raise e => Raise e
    | Return resp =>
        if status_code resp =? 401 then
          Raise (PwintyError (PStr "Authentication Failed"))
        else if status_code resp =? 404 then
          Raise (PwintyError
                   (PStr "The specified resource could not be found"))
        else if (status_code resp =? 400) || (status_code resp >=? 500) then
          match outcome (_get_error_message resp) w with
          | Return msg => Raise (PwintyError msg)
          | Raise e => Raise e
          end
        else outcome (decode_unless_403 (own_error call) resp) w
    end.
Proof.
  pose proof (run_shape self call w) as H.
  destruct (passes_local_checks w call).
  - destruct H as (method & verb & path & files & body & w' & Hverb & Hsent
                   & Hserver & Hrun).
    unfold answer, issued, outcome. rewrite Hrun.
    rewrite (call_then_run _ _ _ _ _ _ _ _ Hverb
               (silent_decode_unless_403 (own_error call))).
    cbv zeta. simpl. rewrite Hsent, drop_app_length, Hserver. simpl.
    intros [= <-].
    destruct (server w (build_request self verb path files body))
      as [resp|e]; [| reflexivity].
    rewrite (outcome_get_error_message resp _ w).
    rewrite (outcome_decode_unless_403 _ resp _ w). reflexivity.
  - destruct H as [e Hrun]. unfold answer, issued. rewrite Hrun. simpl.
    rewrite drop_all. discriminate.
Qed.

(** The answer to a dispatch call is the answer to the request it
    builds; there is none when the verb names no transport function. *)
Lemma call_api_answer self method path files kwargs w ans :
  answer (_call_api self method path files kwargs) w = Some ans ->
  exists verb,
    Runtime.requests_getattr w (Runtime.lower method) =
      Return (Runtime.Function verb) /\
    server w (build_request self verb path files kwargs) = ans.
Proof.
  unfold answer, issued. rewrite call_api_world.
  destruct (Runtime.requests_getattr w (Runtime.lower method))
    as [[verb|]|e].
  - simpl. rewrite drop_app_length. simpl. intros [= <-]. eauto.
  - rewrite drop_all. discriminate.
  - rewrite drop_all. discriminate.
Qed.


(** ** Status 403 *)




(** * Further properties of the client *)

(** ** The verb of a dispatch call *)

Lemma lower_ascii_idempotent c :
  Runtime.lower_ascii (Runtime.lower_ascii c) = Runtime.lower_ascii c.
Proof. destruct c as [[] [] [] [] [] [] [] []]; reflexivity. Qed.

Lemma lower_idempotent s : Runtime.lower (Runtime.lower s) = Runtime.lower s.
Proof.
  induction s as [|c s IH]; simpl; [reflexivity |].
  rewrite lower_ascii_idempotent, IH. reflexivity.
Qed.

(** X1.  The dispatch method takes its verb without regard to case: two
    spellings with the same lower-case form give the same run, and a
    verb can be replaced by its lower-case form. *)
Theorem call_api_verb_case self path files kwargs w :
  (forall m1 m2, Runtime.lower m1 = Runtime.lower m2 ->
     _call_api self m1 path files kwargs w =
     _call_api self m2 path files kwargs w) /\
  (forall method,
     _call_api self (Runtime.lower method) path files kwargs w =
     _call_api self method path files kwargs w) /\
  (forall method,
     _get_http_method (Runtime.lower method) w = _get_http_method method w).
Proof.
  assert (H : forall m1 m2, Runtime.lower m1 = Runtime.lower m2 ->
            _call_api self m1 path files kwargs w =
            _call_api self m2 path files kwargs w).
  { intros m1 m2 Hm. unfold _call_api, _get_http_method, bind at 1 3.
    rewrite Hm. reflexivity. }
  repeat apply conj.
  - exact H.
  - intros method. apply H, lower_idempotent.
  - intros method. unfold _get_http_method. rewrite lower_idempotent.
    reflexivity.
Qed.

Lemma call_api_verb_case_witness :
  _call_api test_client "dElEtE" "/Orders/1/Photos/2" None ∅
    (fresh_world (Return (mkResponse 200 (Some (PDict []))))) =
  _call_api test_client "DELETE" "/Orders/1/Photos/2" None ∅
    (fresh_world (Return (mkResponse 200 (Some (PDict []))))).
Proof.
  apply (call_api_verb_case test_client "/Orders/1/Photos/2" None ∅
           (fresh_world (Return (mkResponse 200 (Some (PDict [])))))).
  reflexivity.
Defined.

(** ** One request for each call *)

Lemma call_then_issued self method path files kwargs
    (k : response -> M pyval) w verb :
  Runtime.requests_getattr w (Runtime.lower method) =
    Return (Runtime.Function verb) ->
  (forall resp, silent (k resp)) ->
  issued (bind (_call_api self method path files kwargs) k) w =
    [build_request self verb path files kwargs].
Proof.
  intros Hverb Hk. apply issued_one.
  rewrite (call_then_run _ _ _ _ _ _ _ _ Hverb Hk). reflexivity.
Qed.

Lemma issued_ext {A} (c c' : M A) w : c w = c' w -> issued c w = issued c' w.
Proof. unfold issued. intros ->. reflexivity. Qed.

(** The requests of [create_order] and [update_order], which spread
    their keyword arguments. *)
Lemma spread_then_issued self own method path kwargs
    (k : response -> M pyval) w verb :
  Runtime.requests_getattr w (Runtime.lower method) =
    Return (Runtime.Function verb) ->
  (forall resp, silent (k resp)) ->
  issued (bind (spread_kwargs own kwargs)
            (fun args => bind (_call_api self method path (fst args)
                                 (snd args)) k)) w =
    if existsb (has_key kwargs) (own ++ ["method"; "api"]) then []
    else [build_request self verb path
            (match kwargs !! "files" with
             | None | Some PNone => None
             | Some v => Some (Given v)
             end)
            (delete "files" kwargs)].
Proof.
  intros Hverb Hk.
  destruct (existsb (has_key kwargs) (own ++ ["method"; "api"])) eqn:Hres.
  - apply issued_nothing. unfold bind at 1, spread_kwargs. rewrite Hres.
    reflexivity.
  - erewrite issued_ext; [apply (call_then_issued _ _ _ _ _ _ _ _ Hverb Hk) |].
    unfold bind at 1, spread_kwargs. rewrite Hres. reflexivity.
Qed.

(** X2.  The request of each endpoint method.  Whatever the remote side
    answers, a call of an endpoint method issues exactly one request,
    with the verb, the path under the base URL, the body and the files
    listed here, unless it stops before the dispatch: [create_order] and
    [update_order] on a keyword that names a parameter already bound,
    [add_photo] on its validation or on [open].  The keyword [files] of
    [create_order] and [update_order] becomes the [files] argument and
    is not in the body.  No call issues more than one request: nothing
    is retried. *)
Theorem endpoint_requests self call w :
  issued (run self call) w =
    match call with
    | GetOrders => [build_request self GET "/Orders" None ∅]
    | GetOrder i =>
        [build_request self GET ("/Orders/" +:+ format_id i) None ∅]
    | CreateOrder kw =>
        if existsb (has_key kw) ["self"; "method"; "api"] then []
        else [build_request self POST "/Orders"
                (match kw !! "files" with
                 | None | Some PNone => None
                 | Some v => Some (Given v)
                 end)
                (delete "files" kw)]
    | UpdateOrder i kw =>
        if existsb (has_key kw) ["self"; "order_id"; "method"; "api"] then []
        else [build_request self PUT ("/Orders/" +:+ format_id i)
                (match kw !! "files" with
                 | None | Some PNone => None
                 | Some v => Some (Given v)
                 end)
                (delete "files" kw)]
    | UpdateOrderStatus i st =>
        [build_request self POST ("/Orders/" +:+ format_id i +:+ "/Status")
           None (<["status" := st]> ∅)]
    | GetSubmissionStatus i =>
        [build_request self GET
           ("/Orders/" +:+ format_id i +:+ "/SubmissionStatus") None ∅]
    | GetCountries => [build_request self GET "/Country" None ∅]
    | GetPhotos i =>
        [build_request self GET ("/Orders/" +:+ format_id i +:+ "/Photos")
           None ∅]
    | GetPhoto i p =>
        [build_request self GET
           ("/Orders/" +:+ format_id i +:+ "/Photos/" +:+ format_id p)
           None ∅]
    | AddPhoto i ty url cp sz pr md5 img =>
        if xorb (is_None url) (is_None img)
           && (negb (truthy img) || openable w img)
        then [build_request self POST
                ("/Orders/" +:+ format_id i +:+ "/Photos")
                (if truthy img
                 then Some (Opened (<["file" := length (handles w)]> ∅))
                 else None)
                (add_photo_data ty url cp sz pr md5)]
        else []
    | DeletePhoto i p =>
        [build_request self DELETE
           ("/Orders/" +:+ format_id i +:+ "/Photos/" +:+ format_id p)
           None ∅]
    | GetCatalogue cc ql =>
        [build_request self GET ("/Catalogue/" +:+ cc +:+ "/" +:+ ql) None ∅]
    end /\
  (length (issued (run self call) w) <= 1)%nat.
Proof.
  assert (Hplain : forall method path kwargs verb,
            Runtime.requests_getattr w (Runtime.lower method) =
              Return (Runtime.Function verb) ->
            issued (bind (_call_api self method path None kwargs)
                      (fun response => Runtime.json response)) w =
              [build_request self verb path None kwargs]).
  { intros method path kwargs verb Hverb.
    apply (call_then_issued _ _ _ _ _ _ _ _ Hverb). intros r. apply silent_json. }
  assert (Hchecked : forall method path kwargs e verb,
            Runtime.requests_getattr w (Runtime.lower method) =
              Return (Runtime.Function verb) ->
            issued (bind (_call_api self method path None kwargs)
                      (fun response =>
                         if status_code response =? 403 then raise e
                         else Runtime.json response)) w =
              [build_request self verb path None kwargs]).
  { intros method path kwargs e verb Hverb.
    apply (call_then_issued _ _ _ _ _ _ _ _ Hverb).
    intros r. apply silent_check_403. }
  destruct call; simpl run;
    unfold get_orders, get_order, create_order, update_order,
      update_order_status, get_submission_status, get_countries, get_photos,
      get_photo, delete_photo, get_catalogue;
    try (first [ erewrite !Hplain by reflexivity
               | erewrite !Hchecked by reflexivity ];
         split; [reflexivity | simpl; lia]).
  - erewrite !spread_then_issued;
      [| reflexivity | intros r; apply silent_json].
    change (["self"] ++ ["method"; "api"]) with ["self"; "method"; "api"].
    destruct (existsb _ _); split; first [reflexivity | simpl; lia].
  - erewrite !spread_then_issued;
      [| reflexivity | intros r; apply silent_check_403].
    change (["self"; "order_id"] ++ ["method"; "api"])
      with ["self"; "order_id"; "method"; "api"].
    destruct (existsb _ _); split; first [reflexivity | simpl; lia].
  - rewrite add_photo_issued.
    destruct (xorb (is_None url) (is_None imgfile)); simpl;
      [| split; [easy | lia]].
    destruct (truthy imgfile); simpl; [| split; [easy | lia]].
    destruct (openable w imgfile); simpl; split; first [easy | lia].
Qed.

(** ** Where requests go *)

Lemma prefix_append s t : String.prefix s (s +:+ t) = true.
Proof.
  induction s as [|c s IH]; simpl; [destruct t; reflexivity |].
  destruct (ascii_dec c c) as [_|Hc]; [exact IH | contradiction].
Qed.

(** Every endpoint method sends only requests built by the dispatch
    method of its client. *)
Lemma run_sends_built self (P : request -> Prop) call :
  (forall verb path files kwargs,
     P (build_request self verb path files kwargs)) ->
  sends_only P (run self call).
Proof.
  intros HP. destruct call; simpl run;
    unfold get_orders, get_order, create_order, update_order,
      update_order_status, get_submission_status, get_countries, get_photos,
      get_photo, add_photo, delete_photo, get_catalogue;
    repeat match goal with
      | |- sends_only _ (if ?b then _ else _) => destruct b
      | |- sends_only _ (raise _) => apply sends_only_silent, silent_raise
      | |- sends_only _ (bind (add_photo_files _) _) =>
          apply sends_only_bind; [apply sends_only_files | intros ?]
      | |- sends_only _ (bind (spread_kwargs _ _) _) =>
          apply sends_only_bind;
            [apply sends_only_silent, silent_spread_kwargs | intros ?]
      | |- sends_only _ (bind (_call_api _ _ _ _ _) _) =>
          apply sends_only_bind;
            [apply sends_only_call_api; intros ?; apply HP | intros ?]
      | |- sends_only _ (Runtime.json _) => apply sends_only_silent, silent_json
      end.
Qed.

(** X3.  Every request of an endpoint method goes to a URL under the
    base URL of its client.  For a client made by the constructor this
    is the sandbox host when [sandbox] is true and the production host
    otherwise, whatever the version string and the arguments of the
    call: a sandbox client never addresses the production host, nor a
    production client the sandbox. *)
Theorem request_urls_under_base :
  (forall self call w,
     Forall (fun r => String.prefix (api self) (req_url r) = true)
       (issued (run self call) w)) /\
  (forall merchant_id apikey version sandbox call w,
     Forall
       (fun r =>
          String.prefix
            (if sandbox : bool then "https://sandbox.pwinty.com/"
             else "https://api.pwinty.com/") (req_url r) = true /\
          String.prefix
            (if sandbox : bool then "https://api.pwinty.com/"
             else "https://sandbox.pwinty.com/") (req_url r) = false)
       (issued (run (Pwinty_init merchant_id apikey version sandbox) call) w)).
Proof.
  split.
  - intros self call w. apply sends_only_issued, run_sends_built.
    intros verb path files kwargs. apply prefix_append.
  - intros merchant_id apikey version sandbox call w.
    apply sends_only_issued, run_sends_built.
    intros verb path files kwargs.
    destruct sandbox, version; split;
      first [ reflexivity
            | apply (prefix_append "https://sandbox.pwinty.com/")
            | apply (prefix_append "https://api.pwinty.com/") ].
Qed.

(** ** Outcomes at every endpoint method *)

(** X4.  A failure of the transport (no answer, an exception of the
    HTTP library) is not caught: every endpoint method, and the dispatch
    method, raises that same exception to the caller. *)
Theorem transport_failure_propagates self w e :
  (forall call,
     answer (run self call) w = Some (Raise e) ->
     outcome (run self call) w = Raise e) /\
  (forall method path files kwargs,
     answer (_call_api self method path files kwargs) w = Some (Raise e) ->
     outcome (_call_api self method path files kwargs) w = Raise e).
Proof.
  split.
  - intros call Hans. exact (run_answered _ _ _ _ Hans).
  - intros method path files kwargs Hans.
    apply call_api_answer in Hans as (verb & Hverb & Hresp).
    unfold outcome. rewrite (call_api_unfold _ _ _ _ _ _ _ Hverb).
    cbv zeta. rewrite Hresp. reflexivity.
Qed.

Lemma transport_failure_propagates_witness :
  outcome (delete_photo test_client (IdInt 23) (IdInt 4))
    (fresh_world (Raise ConnectionError)) = Raise ConnectionError.
Proof.
  destruct (transport_failure_propagates test_client
              (fresh_world (Raise ConnectionError)) ConnectionError) as [H _].
  apply (H (DeletePhoto (IdInt 23) (IdInt 4))). reflexivity.
Defined.

(** On an answer with a status other than 403 every endpoint method does
    what the dispatch does, then decodes the body. *)
Lemma run_answered_other self call w resp :
  answer (run self call) w = Some (Return resp) ->
  status_code resp <> 403 ->
  outcome (run self call) w =
    if status_code resp =? 401 then
      Raise (PwintyError (PStr "Authentication Failed"))
    else if status_code resp =? 404 then
      Raise (PwintyError (PStr "The specified resource could not be found"))
    else if (status_code resp =? 400) || (status_code resp >=? 500) then
      match outcome (_get_error_message resp) w with
      | Return msg => Raise (PwintyError msg)
      | Raise e => Raise e
      end
    else outcome (Runtime.json resp) w.
Proof.
  intros Hans Hst. apply Z.eqb_neq in Hst.
  rewrite (run_answered _ _ _ _ Hans). unfold decode_unless_403.
  destruct (own_error call); [rewrite Hst |]; reflexivity.
Qed.

(** X5.  On an answer whose status is none of 400, 401, 403, 404 and is
    below 500, every endpoint method gives back the decoded body as it
    is, and raises [ValueError] when the body is not JSON (an empty
    body, say, after a deletion). *)
Theorem passed_status_decodes_body self call w resp :
  answer (run self call) w = Some (Return resp) ->
  status_code resp <> 400 -> status_code resp <> 401 ->
  status_code resp <> 403 -> status_code resp <> 404 ->
  status_code resp < 500 ->
  outcome (run self call) w =
    match body resp with
    | Some v => Return v
    | None => Raise ValueError
    end.
Proof.
  intros Hans H400 H401 H403 H404 H500.
  rewrite (run_answered_other _ _ _ _ Hans H403).
  rewrite (proj2 (Z.eqb_neq _ _) H401), (proj2 (Z.eqb_neq _ _) H404),
    (proj2 (Z.eqb_neq _ _) H400).
  replace (status_code resp >=? 500) with false
    by (symmetry; rewrite Z.geb_leb; apply Z.leb_gt; exact H500).
  unfold outcome, Runtime.json. destruct (body resp); reflexivity.
Qed.

Lemma passed_status_decodes_body_witness :
  outcome (get_catalogue test_client "GB" "Pro")
    (fresh_world (Return (mkResponse 200 (Some (PList [PStr "4x6"]))))) =
    Return (PList [PStr "4x6"]) /\
  outcome (delete_photo test_client (IdInt 23) (IdInt 4))
    (fresh_world (Return (mkResponse 204 None))) = Raise ValueError.
Proof.
  split.
  - apply (passed_status_decodes_body test_client (GetCatalogue "GB" "Pro")
             (fresh_world (Return (mkResponse 200 (Some (PList [PStr "4x6"])))))
             (mkResponse 200 (Some (PList [PStr "4x6"]))));
      first [reflexivity | discriminate].
  - apply (passed_status_decodes_body test_client
             (DeletePhoto (IdInt 23) (IdInt 4))
             (fresh_world (Return (mkResponse 204 None)))
             (mkResponse 204 None));
      first [reflexivity | discriminate].
Defined.

(** X6.  Status 401 and status 404 end every endpoint method alike,
    whatever the body of the answer: with the error 'Authentication
    Failed' and with 'The specified resource could not be found'. *)
Theorem unauthorized_and_missing_at_every_endpoint self call w resp :
  answer (run self call) w = Some (Return resp) ->
  (status_code resp = 401 ->
   outcome (run self call) w =
     Raise (PwintyError (PStr "Authentication Failed"))) /\
  (status_code resp = 404 ->
   outcome (run self call) w =
     Raise (PwintyError (PStr "The specified resource could not be found"))).
Proof.
  intros Hans. split; intros Hst;
    rewrite (run_answered_other _ _ _ _ Hans) by lia;
    rewrite Hst; reflexivity.
Qed.

Lemma unauthorized_and_missing_at_every_endpoint_witness :
  outcome (update_order_status test_client (IdInt 23) (PStr "Submitted"))
    (fresh_world (Return (mkResponse 404 None))) =
    Raise (PwintyError (PStr "The specified resource could not be found")).
Proof.
  apply (unauthorized_and_missing_at_every_endpoint test_client
           (UpdateOrderStatus (IdInt 23) (PStr "Submitted"))
           (fresh_world (Return (mkResponse 404 None)))
           (mkResponse 404 None)); reflexivity.
Defined.

(** ** Reading the error message *)

Lemma get_error_message_of_object resp d e w :
  body resp = Some (PDict d) -> dict_get "Error" d = PDict e ->
  outcome (_get_error_message resp) w =
    Return (if dict_has "Message" e then dict_get "Message" e
            else PStr "An unknown error occurred").
Proof.
  intros Hb He. unfold outcome, _get_error_message, bind, Runtime.json.
  rewrite Hb. simpl. rewrite He. destruct e as [|kv e']; [reflexivity |].
  simpl truthy. cbv iota. unfold py_in, ret.
  destruct (dict_has "Message" (kv :: e')); reflexivity.
Qed.

Lemma get_error_message_no_error resp d w :
  body resp = Some (PDict d) -> truthy (dict_get "Error" d) = false ->
  outcome (_get_error_message resp) w =
    Return (PStr "An unknown error occurred").
Proof.
  intros Hb Hf. unfold outcome, _get_error_message, bind, Runtime.json.
  rewrite Hb. simpl. rewrite Hf. reflexivity.
Qed.

(** X7.  On an answer with status 400 or at least 500 whose body is a
    JSON object, every endpoint method raises the error of the package
    with the vendor's message when the ['Error'] member is an object
    with a ['Message'], and with 'An unknown error occurred' when that
    object has no ['Message'] or the ['Error'] member is absent or
    false. *)
Theorem failure_status_at_every_endpoint self call w resp d :
  answer (run self call) w = Some (Return resp) ->
  status_code resp = 400 \/ 500 <= status_code resp ->
  body resp = Some (PDict d) ->
  (forall e, dict_get "Error" d = PDict e ->
     outcome (run self call) w =
       Raise (PwintyError
                (if dict_has "Message" e then dict_get "Message" e
                 else PStr "An unknown error occurred"))) /\
  (truthy (dict_get "Error" d) = false ->
   outcome (run self call) w =
     Raise (PwintyError (PStr "An unknown error occurred"))).
Proof.
  intros Hans Hst Hb.
  assert (Hrun : outcome (run self call) w =
            match outcome (_get_error_message resp) w with
            | Return msg => Raise (PwintyError msg)
            | Raise e => Raise e
            end).
  { rewrite (run_answered_other _ _ _ _ Hans) by lia.
    replace (status_code resp =? 401) with false
      by (symmetry; apply Z.eqb_neq; lia).
    replace (status_code resp =? 404) with false
      by (symmetry; apply Z.eqb_neq; lia).
    replace ((status_code resp =? 400) || (status_code resp >=? 500))
      with true; [reflexivity |].
    symmetry. apply orb_true_iff. rewrite Z.eqb_eq, Z.geb_leb, Z.leb_le. lia. }
  split.
  - intros e He. rewrite Hrun, (get_error_message_of_object _ _ _ _ Hb He).
    reflexivity.
  - intros Hf. rewrite Hrun, (get_error_message_no_error _ _ _ Hb Hf).
    reflexivity.
Qed.

Lemma failure_status_at_every_endpoint_witness :
  outcome (create_order test_client ∅)
    (fresh_world (Return (mkResponse 400
                            (Some (vendor_error "Country is required"))))) =
    Raise (PwintyError (PStr "Country is required")) /\
  outcome (create_order test_client ∅)
    (fresh_world (Return (mkResponse 503 (Some (PDict []))))) =
    Raise (PwintyError (PStr "An unknown error occurred")).
Proof.
  split.
  - assert (Hans : answer (run test_client (CreateOrder ∅))
                     (fresh_world
                        (Return (mkResponse 400
                                   (Some (vendor_error
                                            "Country is required"))))) =
                   Some (Return (mkResponse 400
                                   (Some (vendor_error
                                            "Country is required")))))
      by reflexivity.
    destruct (failure_status_at_every_endpoint test_client (CreateOrder ∅)
                (fresh_world
                   (Return (mkResponse 400
                              (Some (vendor_error "Country is required")))))
                (mkResponse 400 (Some (vendor_error "Country is required")))
                [("Error", PDict [("Message", PStr "Country is required")])]
                Hans (or_introl eq_refl) eq_refl) as [H _].
    apply (H [("Message", PStr "Country is required")] eq_refl).
  - assert (Hst : 503 = 400 \/ 500 <= 503) by (right; lia).
    assert (Hans : answer (run test_client (CreateOrder ∅))
                     (fresh_world (Return (mkResponse 503 (Some (PDict []))))) =
                   Some (Return (mkResponse 503 (Some (PDict [])))))
      by reflexivity.
    destruct (failure_status_at_every_endpoint test_client (CreateOrder ∅)
                (fresh_world (Return (mkResponse 503 (Some (PDict [])))))
                (mkResponse 503 (Some (PDict []))) []
                Hans Hst eq_refl) as [_ H].
    apply H. reflexivity.
Defined.

(** X8.  [_get_error_message] invents nothing and touches nothing: a
    message it returns is either 'An unknown error occurred' or the
    value stored under ['Message'] in the ['Error'] object of the
    decoded body, and the environment is left as it was. *)
Theorem error_message_is_from_body resp w m :
  outcome (_get_error_message resp) w = Return m ->
  (m = PStr "An unknown error occurred" \/
   exists d e, body resp = Some (PDict d) /\ dict_get "Error" d = PDict e /\
               dict_has "Message" e = true /\ m = dict_get "Message" e) /\
  snd (_get_error_message resp w) = w.
Proof.
  intros Hm. split; [| apply silent_get_error_message].
  unfold outcome, _get_error_message, bind, Runtime.json in Hm.
  destruct (body resp) as [doc|] eqn:Hb; [| discriminate Hm].
  destruct doc as [| | | | |d]; try discriminate Hm. simpl in Hm.
  destruct (truthy (dict_get "Error" d)) eqn:Ht;
    [| left; injection Hm as <-; reflexivity].
  destruct (dict_get "Error" d) as [| | |s|l|e] eqn:He; simpl in Hm;
    try discriminate Hm.
  - destruct (str_contains "Message" s); [discriminate Hm |].
    left. injection Hm as <-. reflexivity.
  - destruct (existsb (eq_str "Message") l); [discriminate Hm |].
    left. injection Hm as <-. reflexivity.
  - destruct (dict_has "Message" e) eqn:Hhas.
    + right. exists d, e. injection Hm as <-. repeat split; assumption.
    + left. injection Hm as <-. reflexivity.
Qed.

Lemma error_message_is_from_body_witness :
  PStr "No credit" = PStr "An unknown error occurred" \/
  exists d e,
    Some (vendor_error "No credit") = Some (PDict d) /\
    dict_get "Error" d = PDict e /\ dict_has "Message" e = true /\
    PStr "No credit" = dict_get "Message" e.
Proof.
  apply (error_message_is_from_body
           (mkResponse 500 (Some (vendor_error "No credit")))
           (fresh_world (Raise ConnectionError)) (PStr "No credit")).
  reflexivity.
Defined.

(** X9.  When [_get_error_message] raises instead of returning a
    message: [ValueError] for a body that is not JSON, [AttributeError]
    for a JSON body that is not an object, and, for an object whose
    ['Error'] member is true, [TypeError] when that member is a number
    or a boolean and [AttributeError] when it is a string or a list in
    which ['Message'] occurs; a string or a list without ['Message']
    gives the fallback message. *)
Theorem error_message_failures resp w :
  (body resp = None ->
   outcome (_get_error_message resp) w = Raise ValueError) /\
  (forall doc, body resp = Some doc -> (forall d, doc <> PDict d) ->
   outcome (_get_error_message resp) w = Raise AttributeError) /\
  (forall d, body resp = Some (PDict d) ->
   truthy (dict_get "Error" d) = true ->
   match dict_get "Error" d with
   | PDict _ => True
   | PStr s =>
       outcome (_get_error_message resp) w =
         if str_contains "Message" s then Raise AttributeError
         else Return (PStr "An unknown error occurred")
   | PList l =>
       outcome (_get_error_message resp) w =
         if existsb (eq_str "Message") l then Raise AttributeError
         else Return (PStr "An unknown error occurred")
   | _ => outcome (_get_error_message resp) w = Raise TypeError
   end).
Proof.
  unfold outcome, _get_error_message, bind, Runtime.json.
  repeat apply conj.
  - intros ->. reflexivity.
  - intros doc -> Hdoc. destruct doc; try reflexivity.
    exfalso. eapply Hdoc. reflexivity.
  - intros d -> Ht. simpl. rewrite Ht.
    destruct (dict_get "Error" d) as [| | |s|l|e]; simpl;
      try reflexivity; try exact I.
    + destruct (str_contains "Message" s); reflexivity.
    + destruct (existsb (eq_str "Message") l); reflexivity.
Qed.

Lemma error_message_failures_witness :
  outcome (_get_error_message (mkResponse 500 (Some (PList []))))
    (fresh_world (Raise ConnectionError)) = Raise AttributeError /\
  outcome (_get_error_message
             (mkResponse 500 (Some (PDict [("Error", PInt 7)]))))
    (fresh_world (Raise ConnectionError)) = Raise TypeError.
Proof.
  split.
  - destruct (error_message_failures (mkResponse 500 (Some (PList [])))
                (fresh_world (Raise ConnectionError))) as (_ & H & _).
    apply (H (PList [])); [reflexivity | discriminate].
  - destruct (error_message_failures
                (mkResponse 500 (Some (PDict [("Error", PInt 7)])))
                (fresh_world (Raise ConnectionError))) as (_ & _ & H).
    apply (H [("Error", PInt 7)]); reflexivity.
Defined.

(** ** Identifiers in paths *)

(** X10.  Identifiers are put into the path as they are, with no
    quoting: a string identifier that contains a path separator reaches
    another resource, so [get_order] with the identifier [i/Photos] is
    [get_photos] with [i], and likewise for the submission status and
    for one photo; an integer identifier and its decimal string are the
    same identifier. *)
Theorem identifiers_are_not_quoted self (i p : ident) (n : Z) w :
  get_order self (IdStr (format_id i +:+ "/Photos")) w = get_photos self i w /\
  get_order self (IdStr (format_id i +:+ "/SubmissionStatus")) w =
    get_submission_status self i w /\
  get_order self (IdStr (format_id i +:+ "/Photos/" +:+ format_id p)) w =
    get_photo self i p w /\
  get_order self (IdInt n) w = get_order self (IdStr (pretty n)) w.
Proof. repeat split. Qed.

(** X11.  Integer order identifiers are kept apart: for two different
    integers [get_order] issues different requests, since their URLs
    differ. *)
Theorem integer_orders_are_distinct self (n m : Z) w :
  n <> m ->
  issued (get_order self (IdInt n)) w <> issued (get_order self (IdInt m)) w.
Proof.
  intros Hnm. unfold get_order.
  rewrite !(call_then_issued self "GET" _ None ∅ _ w GET eq_refl)
    by (intros r; apply silent_json).
  intros [= Hurl]. apply Hnm.
  apply (inj (String.app (api self))) in Hurl.
  apply (inj (String.app "/Orders/")) in Hurl.
  apply (inj pretty) in Hurl. exact Hurl.
Qed.

Lemma integer_orders_are_distinct_witness :
  issued (get_order test_client (IdInt 23))
    (fresh_world (Return (mkResponse 200 (Some (PDict []))))) <>
  issued (get_order test_client (IdInt 32))
    (fresh_world (Return (mkResponse 200 (Some (PDict []))))).
Proof.
  apply (integer_orders_are_distinct test_client 23 32
           (fresh_world (Return (mkResponse 200 (Some (PDict [])))))).
  discriminate.
Defined.

(** ** Files opened by [add_photo] *)

(** X12.  [add_photo] opens at most one file, the one named by
    [imgfile], and only to send it: the handle table grows exactly when
    a request carrying a file is issued, it then grows by one open
    handle on that path, and with no [imgfile] it is left as it was. *)
Theorem add_photo_opens_what_it_sends self order_id ptype url copies sizing
    price_to_user md5hash imgfile w :
  let call := add_photo self order_id ptype url copies sizing price_to_user
                md5hash imgfile in
  (handles (snd (call w)) = handles w \/
   exists p, imgfile = PStr p /\ url = PNone /\
             handles (snd (call w)) = handles w ++ [(p, true)]) /\
  (handles (snd (call w)) <> handles w <->
   exists r h, issued call w = [r] /\
               req_files r = Some (Opened (<["file" := h]> ∅))) /\
  (imgfile = PNone -> handles (snd (call w)) = handles w).
Proof.
  intros call.
  assert (Hgrow : forall (l : list (string * bool)) x, l ++ [x] <> l).
  { intros l x H. apply (f_equal length) in H.
    rewrite length_app in H. simpl in H. lia. }
  assert (Hnone : forall (l : list request) (P3 : Prop),
            (forall r, l = [r] -> req_files r = None) \/ l = [] -> P3 ->
            (handles w = handles w \/
             exists p, imgfile = PStr p /\ url = PNone /\
                       handles w = handles w ++ [(p, true)]) /\
            (handles w <> handles w <->
             exists r h, l = [r] /\ req_files r = Some (Opened (<["file" := h]> ∅))) /\
            P3).
  { intros l P3 Hl HP3. split; [left; reflexivity | split; [| exact HP3]].
    split; [intros H; exfalso; apply H; reflexivity |].
    intros (r & h & Hr & Hf). destruct Hl as [Hl | ->]; [| discriminate Hr].
    rewrite (Hl r Hr) in Hf. discriminate Hf. }
  unfold call. rewrite add_photo_handles, add_photo_issued.
  destruct imgfile as [|b|n|p|l|d]; simpl;
    try (apply Hnone; [| first [discriminate | intros _; reflexivity]];
         repeat match goal with
           | |- context [if ?c then _ else _] => destruct c
           end;
         first [ right; reflexivity
               | left; intros r [= <-]; reflexivity ]).
  destruct (is_None url) eqn:Hu; simpl;
    [| apply Hnone; [right; reflexivity | discriminate]].
  apply is_None_true in Hu. subst url.
  destruct (negb (p =? "")%string); simpl;
    [| apply Hnone; [left; intros r [= <-]; reflexivity | discriminate]].
  destruct (readable w p); simpl;
    [| apply Hnone; [right; reflexivity | discriminate]].
  split; [| split].
  - right. exists p. repeat split.
  - split; [intros _; eauto | intros _; apply Hgrow].
  - discriminate.
Qed.

Lemma add_photo_opens_what_it_sends_witness :
  handles
    (snd (add_photo test_client (IdInt 23) (PStr "4x6") PNone PNone PNone
            PNone PNone (PStr "photo.jpg")
            (fresh_world (Return (mkResponse 404 None))))) = [("photo.jpg", true)]
  /\
  handles
    (snd (add_photo test_client (IdInt 23) (PStr "4x6")
            (PStr "http://example.com/a.jpg") PNone PNone PNone PNone PNone
            (fresh_world (Return (mkResponse 404 None))))) = [].
Proof.
  split.
  - destruct (add_photo_opens_what_it_sends test_client (IdInt 23)
                (PStr "4x6") PNone PNone PNone PNone PNone (PStr "photo.jpg")
                (fresh_world (Return (mkResponse 404 None))))
      as ([H | (p & Hp & _ & H)] & _ & _).
    + reflexivity.
    + injection Hp as <-. exact H.
  - destruct (add_photo_opens_what_it_sends test_client (IdInt 23)
                (PStr "4x6") (PStr "http://example.com/a.jpg") PNone PNone
                PNone PNone PNone
                (fresh_world (Return (mkResponse 404 None)))) as (_ & _ & H).
    apply H. reflexivity.
Defined.

(** X13.  Only [add_photo] opens files: after a call of any other
    endpoint method the handle table is what it was, whatever the
    answer. *)
Theorem other_endpoints_open_no_file self call w :
  match call with
  | AddPhoto _ _ _ _ _ _ _ _ => True
  | _ => handles (snd (run self call w)) = handles w
  end.
Proof.
  destruct call; simpl run; try exact I;
    unfold get_orders, get_order, create_order, update_order,
      update_order_status, get_submission_status, get_countries, get_photos,
      get_photo, delete_photo, get_catalogue;
    try (unfold bind at 1, spread_kwargs;
         destruct (existsb _ _); [reflexivity |];
         change (ret ?a w) with (Return a, w); cbv iota beta);
    erewrite call_then_run;
    first [ reflexivity
          | intros r; first [apply silent_json | apply silent_check_403] ].
Qed.

(** ** The empty path *)

Lemma append_empty_r s : s +:+ "" = s.
Proof.
  induction s as [|c s IH]; [reflexivity |].
  change (String c (s +:+ "") = String c s). rewrite IH. reflexivity.
Qed.

(** X14.  A dispatch call with the empty path addresses the base URL
    itself, as the test suite expects of [_call_api('GET', '')]. *)
Theorem call_api_empty_path self method files kwargs w verb :
  Runtime.requests_getattr w (Runtime.lower method) =
    Return (Runtime.Function verb) ->
  exists r, issued (_call_api self method "" files kwargs) w = [r] /\
            req_url r = api self /\ req_method r = verb.
Proof.
  intros Hverb. eexists.
  split; [apply (call_api_issued _ _ _ _ _ _ _ Hverb) |].
  split; [apply append_empty_r | reflexivity].
Qed.

Lemma call_api_empty_path_witness :
  exists r,
    issued (_call_api test_client "GET" "" None ∅)
      (fresh_world (Return (mkResponse 200 (Some (PDict []))))) = [r] /\
    req_url r = "https://sandbox.pwinty.com/v2" /\ req_method r = GET.
Proof.
  apply (call_api_empty_path test_client "GET" None ∅
           (fresh_world (Return (mkResponse 200 (Some (PDict []))))) GET).
  reflexivity.
Defined.

(** ** Keyword arguments of [create_order] and [update_order] *)

(** X15.  [create_order] and [update_order] spread their keyword
    arguments over the parameters of the dispatch method.  A keyword
    named [method] or [api] is a [TypeError] and nothing is sent; a
    keyword [files] with a value other than [None] becomes the [files]
    argument of the request and is not a body field; without these
    keywords the body is the keyword arguments as given and there is no
    file. *)
Theorem keyword_arguments_are_spread self order_id
    (kw : gmap string pyval) w :
  (has_key kw "method" = true \/ has_key kw "api" = true ->
   create_order self kw w = (Raise TypeError, w) /\
   update_order self order_id kw w = (Raise TypeError, w)) /\
  (existsb (has_key kw) ["self"; "order_id"; "method"; "api"] = false ->
   exists r1 r2,
     issued (create_order self kw) w = [r1] /\
     issued (update_order self order_id kw) w = [r2] /\
     req_data r1 = delete "files" kw /\ req_data r2 = delete "files" kw /\
     req_data r1 !! "files" = None /\ req_data r2 !! "files" = None /\
     (forall v, kw !! "files" = Some v -> v <> PNone ->
        req_files r1 = Some (Given v) /\ req_files r2 = Some (Given v)) /\
     (kw !! "files" = None ->
        req_data r1 = kw /\ req_data r2 = kw /\
        req_files r1 = None /\ req_files r2 = None)).
Proof.
  split.
  - intros H.
    assert (Hc : forall own,
              existsb (has_key kw) (own ++ ["method"; "api"]) = true).
    { intros own. apply List.existsb_exists.
      destruct H as [H | H]; [exists "method" | exists "api"];
        (split; [apply List.in_or_app; right; simpl; auto | exact H]). }
    unfold create_order, update_order, bind at 1 3, spread_kwargs.
    rewrite !Hc. split; reflexivity.
  - intros Hfree.
    assert (Hfree' : existsb (has_key kw) (["self"] ++ ["method"; "api"])
                     = false).
    { simpl in *. apply orb_false_iff in Hfree as [Hs Hfree].
      apply orb_false_iff in Hfree as [_ Hfree]. rewrite Hs. exact Hfree. }
    eexists _, _. split; [| split].
    + unfold create_order.
      rewrite (spread_then_issued self ["self"] "POST" "/Orders" kw _ w POST
                 eq_refl) by (intros r; apply silent_json).
      rewrite Hfree'. reflexivity.
    + unfold update_order.
      rewrite (spread_then_issued self ["self"; "order_id"] "PUT" _ kw _ w PUT
                 eq_refl) by (intros r; apply silent_check_403).
      change (["self"; "order_id"] ++ ["method"; "api"])
        with ["self"; "order_id"; "method"; "api"].
      rewrite Hfree. reflexivity.
    + simpl. repeat apply conj; try reflexivity.
      * apply lookup_delete_eq.
      * apply lookup_delete_eq.
      * intros v Hv Hnone. rewrite Hv.
        destruct v; first [contradiction Hnone; reflexivity | split; reflexivity].
      * intros Hnone. rewrite Hnone.
        rewrite delete_id by exact Hnone. repeat split.
Qed.

Lemma keyword_arguments_are_spread_witness :
  create_order test_client (<["api" := PStr "/Country"]> ∅)
    (fresh_world (Return (mkResponse 200 (Some (PDict []))))) =
    (Raise TypeError, fresh_world (Return (mkResponse 200 (Some (PDict []))))) /\
  exists r,
    issued (create_order test_client
              (<["files" := PDict [("file", PStr "data")]]>
                 (<["countryCode" := PStr "GB"]> ∅)))
      (fresh_world (Return (mkResponse 200 (Some (PDict []))))) = [r] /\
    req_files r = Some (Given (PDict [("file", PStr "data")])) /\
    req_data r !! "files" = None.
Proof.
  split.
  - destruct (keyword_arguments_are_spread test_client (IdInt 23)
                (<["api" := PStr "/Country"]> ∅)
                (fresh_world (Return (mkResponse 200 (Some (PDict []))))))
      as [H _].
    apply H. right. reflexivity.
  - destruct (keyword_arguments_are_spread test_client (IdInt 23)
                (<["files" := PDict [("file", PStr "data")]]>
                   (<["countryCode" := PStr "GB"]> ∅))
                (fresh_world (Return (mkResponse 200 (Some (PDict []))))))
      as [_ H].
    destruct H as (r1 & r2 & Hr1 & _ & _ & _ & Hd & _ & Hf & _);
      [reflexivity |].
    exists r1. split; [exact Hr1 |]. split; [| exact Hd].
    apply (Hf (PDict [("file", PStr "data")])); [reflexivity | discriminate].
Defined.

(** ** Verbs that name no transport function *)

Lemma requests_getattr_not_function w name :
  (forall verb,
     Runtime.requests_getattr w name <> Return (Runtime.Function verb)) ->
  Runtime.requests_getattr w name =
    if library w name then Return Runtime.Other else Raise AttributeError.
Proof.
  unfold Runtime.requests_getattr. intros H.
  repeat match goal with
    | |- (if String.eqb name ?s then _ else _) = _ =>
        destruct (String.eqb name s) eqn:?;
          [exfalso; eapply H; unfold Runtime.requests_getattr;
           repeat match goal with Hs : String.eqb _ _ = _ |- _ =>
             rewrite Hs; clear Hs end; reflexivity |]
    end.
  reflexivity.
Qed.

(** X16.  A dispatch call whose verb names no transport function of the
    HTTP library sends nothing and leaves the environment as it was: it
    raises [AttributeError] when the library has nothing under the
    lower-case name, and [TypeError] when the name is another attribute
    of the library, which cannot be called like a transport function. *)
Theorem call_api_without_transport self method path files kwargs w :
  (forall verb,
     Runtime.requests_getattr w (Runtime.lower method) <>
       Return (Runtime.Function verb)) ->
  _call_api self method path files kwargs w =
    (if library w (Runtime.lower method) then Raise TypeError
     else Raise AttributeError, w) /\
  issued (_call_api self method path files kwargs) w = [].
Proof.
  intros Hno.
  assert (Hrun : _call_api self method path files kwargs w =
            (if library w (Runtime.lower method) then Raise TypeError
             else Raise AttributeError, w)).
  { pose proof (requests_getattr_not_function _ _ Hno) as Hattr.
    destruct (library w (Runtime.lower method)).
    - apply call_api_other_attribute. exact Hattr.
    - apply call_api_no_verb. exact Hattr. }
  split; [exact Hrun |].
  apply issued_nothing. rewrite Hrun. reflexivity.
Qed.

Lemma call_api_without_transport_witness :
  let ok := fresh_world (Return (mkResponse 200 (Some (PDict [])))) in
  _call_api test_client "SESSION" "/Orders" None ∅ ok = (Raise TypeError, ok) /\
  _call_api test_client "FETCH" "/Orders" None ∅ ok = (Raise AttributeError, ok).
Proof.
  intros ok. split.
  - apply (call_api_without_transport test_client "SESSION" "/Orders" None ∅
             ok).
    intros verb. discriminate.
  - apply (call_api_without_transport test_client "FETCH" "/Orders" None ∅
             ok).
    intros verb. discriminate.
Defined.
